(** * AzureFaceID-RT: the attendance service of [app.py]

    A shallow embedding of the Flask service: the record-store client
    ([supabase_request] and the operations derived from it), the face-service
    client (the Rekognition wrappers) and the HTTP endpoints that sequence
    them.  The two remote services are not part of the program; they appear
    as oracles of a [World], and every call the program makes to them is
    recorded, in order, in the list of events a run emits. *)

From Stdlib Require Import String Ascii List ZArith Lia Bool DecimalString.
From Stdlib Require Import Floats.PrimFloat.
Import ListNotations.

#[local] Set Warnings "-register-all,-inexact-float".

Open Scope string_scope.
Open Scope Z_scope.

(** ** Python values *)

Module Py.

(** The values that flow through the service: what [request.json],
    [response.json()] and the dictionaries the code builds can hold.
    A [str] is a sequence of characters, here restricted to 8-bit ones;
    a [dict] keeps its items in insertion order, keys being strings as in
    every JSON object. *)
Inductive pyval : Type :=
| PNone
| PBool (b : bool)
| PInt (z : Z)
| PFloat (f : float)
| PStr (s : string)
| PList (l : list pyval)
| PDict (d : list (string * pyval)).

(** The exceptions the program's own operations can raise, and the one
    the face-service client catches. *)
Inductive exn : Type :=
| TypeError
| KeyError
| IndexError
| AttributeError
| UnboundLocalError
| ValueError
| ClientError (msg : string).

(** The result of evaluating a Python expression. *)
Inductive outcome (A : Type) : Type :=
| Ret (a : A)
| Raise (e : exn).
Arguments Ret {A} a.
Arguments Raise {A} e.

Definition obind {A B} (o : outcome A) (k : A -> outcome B) : outcome B :=
  match o with
  | Ret a => k a
  | Raise e => Raise e
  end.

(** [bool(v)] *)
Definition truthy (v : pyval) : bool :=
  match v with
  | PNone => false
  | PBool b => b
  | PInt z => negb (z =? 0)
  | PFloat f => negb (PrimFloat.eqb f 0%float)
  | PStr s => negb (s =? "")%string
  | PList l => match l with [] => false | _ :: _ => true end
  | PDict d => match d with [] => false | _ :: _ => true end
  end.

(** [d.get(k)] on the items of a dict. *)
Fixpoint lookup (k : string) (d : list (string * pyval)) : option pyval :=
  match d with
  | [] => None
  | (k', v) :: d' => if (k' =? k)%string then Some v else lookup k d'
  end.

Definition has_key (k : string) (d : list (string * pyval)) : bool :=
  match lookup k d with Some _ => true | None => false end.

(** [v == s] for a string literal [s]: only a [str] equals a [str]. *)
Definition eq_str (v : pyval) (s : string) : bool :=
  match v with
  | PStr s' => (s' =? s)%string
  | _ => false
  end.

(** [needle in hay] on two strings: substring test. *)
Fixpoint str_contains (needle hay : string) : bool :=
  String.prefix needle hay
  || match hay with
     | EmptyString => false
     | String _ hay' => str_contains needle hay'
     end.

(** [k in v] for a string [k]: key test on a dict, membership on a list,
    substring on a string; other values are not iterable. *)
Definition contains (k : string) (v : pyval) : outcome bool :=
  match v with
  | PDict d => Ret (has_key k d)
  | PList l => Ret (existsb (fun x => eq_str x k) l)
  | PStr s => Ret (str_contains k s)
  | _ => Raise TypeError
  end.

(** [v[k]] for a string key [k]. *)
Definition getitem (v : pyval) (k : string) : outcome pyval :=
  match v with
  | PDict d => match lookup k d with
               | Some x => Ret x
               | None => Raise KeyError
               end
  | _ => Raise TypeError
  end.

(** [v[i]] for a non-negative integer [i]; a JSON object has no integer key. *)
Definition getindex (v : pyval) (i : nat) : outcome pyval :=
  match v with
  | PList l => match nth_error l i with
               | Some x => Ret x
               | None => Raise IndexError
               end
  | PStr s => match String.get i s with
              | Some c => Ret (PStr (String c EmptyString))
              | None => Raise IndexError
              end
  | PDict _ => Raise KeyError
  | _ => Raise TypeError
  end.

(** [len(v)] *)
Definition len (v : pyval) : outcome Z :=
  match v with
  | PList l => Ret (Z.of_nat (List.length l))
  | PStr s => Ret (Z.of_nat (String.length s))
  | PDict d => Ret (Z.of_nat (List.length d))
  | _ => Raise TypeError
  end.

(** [s.split(sep)] for a one-character separator. *)
Fixpoint str_split (sep : ascii) (s : string) : list string :=
  match s with
  | EmptyString => [EmptyString]
  | String c s' =>
      if Ascii.eqb c sep then EmptyString :: str_split sep s'
      else match str_split sep s' with
           | piece :: pieces => String c piece :: pieces
           | [] => [String c EmptyString]
           end
  end.

(** [v.split(',')]: only a [str] has the method. *)
Definition split_comma (v : pyval) : outcome pyval :=
  match v with
  | PStr s => Ret (PList (map PStr (str_split "," s)))
  | _ => Raise AttributeError
  end.

(** [str(z)] for an integer. *)
Definition str_of_Z (z : Z) : string := NilZero.string_of_int (Z.to_int z).

(** [str(x)] where [x] is an environment variable that may be unset. *)
Definition str_of_env (x : option string) : string :=
  match x with
  | Some s => s
  | None => "None"
  end.

Definition val_of_env (x : option string) : pyval :=
  match x with
  | Some s => PStr s
  | None => PNone
  end.

End Py.
Import Py.

(** ** The world outside the process *)

(** What [requests] hands back: [response.status_code], [response.text]
    and the value of [response.json()], [None] when the body is not JSON
    and the call raises. *)
Record response : Type := {
  status_code : Z;
  text : string;
  json : option pyval
}.

(** The keyword argument an HTTP call carries besides its headers. *)
Inductive http_kwarg : Type :=
| Params (params : pyval)
| Json (data : pyval).

(** One face of [response['FaceMatches']]. *)
Record face_match : Type := {
  match_face_id : string;
  match_similarity : float;
  match_external_image_id : option string
}.

(** Everything observable a run does, in order. *)
Inductive event : Type :=
| EvPrint (line : string)
| EvHttp (method url : string) (headers : list (string * pyval)) (kw : http_kwarg)
| EvListCollections
| EvCreateCollection (CollectionId : string)
| EvDeleteCollection (CollectionId : string)
| EvIndexFaces (CollectionId : string) (Bytes : list Byte.byte)
    (ExternalImageId : pyval) (DetectionAttributes : list string)
| EvSearchFacesByImage (CollectionId : string) (Bytes : list Byte.byte)
    (FaceMatchThreshold : Z) (MaxFaces : Z)
| EvDeleteFaces (CollectionId : string) (FaceIds : pyval).

Definition history : Type := list event.

(** The process environment, the library functions the model does not
    open, and the two remote services.  A service answers a call knowing
    everything that happened before it, so any deterministic service is a
    [World]; the face service answers with its result or with the message
    of a [ClientError], and the store with an HTTP response.  These are
    the endings of a call that the source provides for.  A call that the
    client library refuses or cannot make (a parameter boto3 rejects,
    missing credentials, an unset store URL, a broken connection) ends in
    an exception the source has no handler for; such runs are not runs
    of a [World], and every property below that speaks of a call speaks
    of it by the answer the service gave. *)
Record World : Type := {
  SUPABASE_URL : option string;
  SUPABASE_KEY : option string;
  COLLECTION_ID : option string;
  (** [str(v)] inside an f-string, for floats, lists and dicts *)
  py_repr : pyval -> string;
  (** [base64.b64decode], [None] when it raises *)
  b64decode : string -> option (list Byte.byte);
  requests_send :
    history -> string -> string -> list (string * pyval) -> http_kwarg -> response;
  rekognition_list_collections : history -> string + list string;
  rekognition_create_collection : history -> string -> string + string;
  rekognition_delete_collection : history -> string -> string + unit;
  rekognition_index_faces :
    history -> string -> list Byte.byte -> pyval -> list string -> string + list string;
  rekognition_search_faces_by_image :
    history -> string -> list Byte.byte -> Z -> Z -> string + list face_match;
  rekognition_delete_faces : history -> string -> pyval -> string + option pyval
}.

(** ** Runs: a value or an exception, and the events emitted *)

Module Run.

Definition M (A : Type) : Type := history -> outcome A * list event.

Definition ret {A} (a : A) : M A := fun _ => (Ret a, []).

Definition raise {A} (e : exn) : M A := fun _ => (Raise e, []).

Definition lift {A} (o : outcome A) : M A := fun _ => (o, []).

Definition bind {A B} (m : M A) (k : A -> M B) : M B :=
  fun h =>
    match m h with
    | (Ret a, evs) => let (r, evs') := k a (h ++ evs)%list in (r, (evs ++ evs')%list)
    | (Raise e, evs) => (Raise e, evs)
    end.

(** [try: m  except ClientError as e: handler(str(e))] *)
Definition except_ClientError {A} (m : M A) (handler : string -> M A) : M A :=
  fun h =>
    match m h with
    | (Raise (ClientError msg), evs) =>
        let (r, evs') := handler msg (h ++ evs)%list in (r, (evs ++ evs')%list)
    | other => other
    end.

Definition print (line : string) : M unit := fun _ => (Ret tt, [EvPrint line]).

(** A call to the face service that was answered: the call is an event
    whether the answer is a result or a [ClientError]. *)
Definition service {A} (ev : event) (answer : history -> string + A) : M A :=
  fun h =>
    (match answer h with
     | inl msg => Raise (ClientError msg)
     | inr a => Ret a
     end, [ev]).

End Run.
Import Run.

Notation "x <- m ;; k" := (bind m (fun x => k))
  (at level 61, m at next level, right associativity).
Notation "m ;; k" := (bind m (fun _ => k))
  (at level 61, right associativity).
Notation "x <~ o ;; k" := (bind (lift o) (fun x => k))
  (at level 61, o at next level, right associativity).

(** ** The service *)

(** [f"{v}"] *)
Definition format (W : World) (v : pyval) : string :=
  match v with
  | PNone => "None"
  | PBool true => "True"
  | PBool false => "False"
  | PInt z => str_of_Z z
  | PStr s => s
  | _ => py_repr W v
  end.

(** [collection_id = os.getenv("COLLECTION_ID", "attendance_collection")] *)
Definition collection_id (W : World) : string :=
  match COLLECTION_ID W with
  | Some s => s
  | None => "attendance_collection"
  end.

(** *** Supabase functions *)

(** [requests.get], [requests.post], [requests.put], [requests.delete],
    for a request the store answered. *)
Definition requests (W : World) (method url : string)
    (headers : list (string * pyval)) (kw : http_kwarg) : M response :=
  fun h => (Ret (requests_send W h method url headers kw), [EvHttp method url headers kw]).

Definition supabase_headers (W : World) : list (string * pyval) :=
  [ ("apikey", val_of_env (SUPABASE_KEY W));
    ("Authorization", PStr ("Bearer " ++ str_of_env (SUPABASE_KEY W)));
    ("Content-Type", PStr "application/json");
    ("Prefer", PStr "return=representation") ].

Definition supabase_request (W : World) (method endpoint : string)
    (data params : pyval) : M pyval :=
  let url := str_of_env (SUPABASE_URL W) ++ endpoint in
  let headers := supabase_headers W in
  response <-
    (if (method =? "GET")%string then requests W "GET" url headers (Params params)
     else if (method =? "POST")%string then requests W "POST" url headers (Json data)
     else if (method =? "PUT")%string then requests W "PUT" url headers (Json data)
     else if (method =? "DELETE")%string then requests W "DELETE" url headers (Params params)
     else raise UnboundLocalError) ;;
  if status_code response >=? 400 then
    print ("Error: " ++ str_of_Z (status_code response)) ;;
    print (text response) ;;
    ret PNone
  else
    match json response with
    | Some v => ret v
    | None => ret (PStr (text response))
    end.

Definition get_students (W : World) : M pyval :=
  supabase_request W "GET" "/rest/v1/students?select=*" PNone PNone.

Definition get_student_by_id (W : World) (student_id : pyval) : M pyval :=
  supabase_request W "GET"
    ("/rest/v1/students?id=eq." ++ format W student_id ++ "&select=*") PNone PNone.

Definition get_student_by_roll_number (W : World) (roll_number : pyval) : M pyval :=
  supabase_request W "GET"
    ("/rest/v1/students?roll_number=eq." ++ format W roll_number ++ "&select=*")
    PNone PNone.

Definition create_student (W : World) (name branch year roll_number email : pyval)
    : M pyval :=
  let data := PDict [ ("name", name); ("branch", branch); ("year", year);
                      ("roll_number", roll_number); ("email", email) ] in
  supabase_request W "POST" "/rest/v1/students" data PNone.

Definition record_attendance (W : World) (student_id confidence : pyval) : M pyval :=
  let data := PDict [ ("student_id", student_id); ("confidence", confidence) ] in
  supabase_request W "POST" "/rest/v1/attendance" data PNone.

Definition get_attendance_records (W : World) (limit : pyval) : M pyval :=
  supabase_request W "GET"
    ("/rest/v1/attendance_with_student?select=*&limit=" ++ format W limit) PNone PNone.

(** *** AWS Rekognition functions *)

Definition status_message (status message : string) : pyval :=
  PDict [ ("status", PStr status); ("message", PStr message) ].

Definition create_collection (W : World) (collection_id : string) : M pyval :=
  except_ClientError
    (CollectionIds <- service EvListCollections (rekognition_list_collections W) ;;
     if existsb (String.eqb collection_id) CollectionIds then
       print ("Collection '" ++ collection_id ++ "' already exists.") ;;
       ret (status_message "success"
              ("Collection '" ++ collection_id ++ "' already exists."))
     else
       CollectionArn <- service (EvCreateCollection collection_id)
                          (fun h => rekognition_create_collection W h collection_id) ;;
       print ("Collection '" ++ collection_id ++ "' created. ARN: " ++ CollectionArn) ;;
       ret (status_message "success" ("Collection '" ++ collection_id ++ "' created.")))
    (fun e =>
       print ("Error creating collection: " ++ e) ;;
       ret (status_message "error" e)).

Definition delete_collection (W : World) (collection_id : string) : M pyval :=
  except_ClientError
    (service (EvDeleteCollection collection_id)
       (fun h => rekognition_delete_collection W h collection_id) ;;
     print ("Collection '" ++ collection_id ++ "' deleted.") ;;
     ret (status_message "success" ("Collection '" ++ collection_id ++ "' deleted.")))
    (fun e =>
       print ("Error deleting collection: " ++ e) ;;
       ret (status_message "error" e)).

(** [base64.b64decode(image_base64)]: a value that is no string is a
    [TypeError], a string that does not decode a [binascii.Error]. *)
Definition decode_image (W : World) (image_base64 : pyval) : outcome (list Byte.byte) :=
  match image_base64 with
  | PStr s => match b64decode W s with
              | Some bytes => Ret bytes
              | None => Raise ValueError
              end
  | _ => Raise TypeError
  end.

Fixpoint print_face_ids (face_ids : list string) : M unit :=
  match face_ids with
  | [] => ret tt
  | face_id :: rest => print ("Face ID: " ++ face_id) ;; print_face_ids rest
  end.

Definition index_faces_from_base64 (W : World) (collection_id : string)
    (image_base64 external_id : pyval) : M pyval :=
  except_ClientError
    (image_bytes <~ decode_image W image_base64 ;;
     let ExternalImageId := if truthy external_id then external_id else PStr "unknown" in
     face_records <- service
                       (EvIndexFaces collection_id image_bytes ExternalImageId ["ALL"])
                       (fun h => rekognition_index_faces W h collection_id image_bytes
                                   ExternalImageId ["ALL"]) ;;
     match face_records with
     | _ :: _ =>
         print ("Added " ++ str_of_Z (Z.of_nat (List.length face_records))
                ++ " face(s) to collection '" ++ collection_id ++ "'") ;;
         print_face_ids face_records ;;
         ret (PDict [ ("status", PStr "success");
                      ("face_ids", PList (map PStr face_records));
                      ("count", PInt (Z.of_nat (List.length face_records))) ])
     | [] =>
         print "No faces detected in the image." ;;
         ret (status_message "error" "No faces detected in the image.")
     end)
    (fun e =>
       print ("Error indexing face: " ++ e) ;;
       ret (status_message "error" e)).

Definition match_entry (m : face_match) : pyval :=
  PDict [ ("face_id", PStr (match_face_id m));
          ("similarity", PFloat (match_similarity m));
          ("external_id", PStr (match match_external_image_id m with
                                | Some x => x
                                | None => "unknown"
                                end)) ].

Definition search_faces_from_base64 (W : World) (collection_id : string)
    (image_base64 : pyval) (threshold : Z) : M pyval :=
  except_ClientError
    (image_bytes <~ decode_image W image_base64 ;;
     face_matches <- service
                       (EvSearchFacesByImage collection_id image_bytes threshold 5)
                       (fun h => rekognition_search_faces_by_image W h collection_id
                                   image_bytes threshold 5) ;;
     match face_matches with
     | _ :: _ =>
         print ("Found " ++ str_of_Z (Z.of_nat (List.length face_matches))
                ++ " match(es)") ;;
         ret (PDict [ ("status", PStr "success");
                      ("matches", PList (map match_entry face_matches)) ])
     | [] =>
         print "No matching faces found in the collection." ;;
         ret (status_message "error" "No matching faces found in the collection.")
     end)
    (fun e =>
       if str_contains "InvalidParameterException" e
          && str_contains "No face detected" e
       then
         print "No faces detected in the input image." ;;
         ret (status_message "error" "No faces detected in the input image.")
       else
         print ("Error searching for faces: " ++ e) ;;
         ret (status_message "error" e)).

Definition delete_faces (W : World) (collection_id : string) (face_ids : pyval)
    : M pyval :=
  except_ClientError
    (DeletedFaces <- service (EvDeleteFaces collection_id face_ids)
                       (fun h => rekognition_delete_faces W h collection_id face_ids) ;;
     let deleted_faces := match DeletedFaces with Some l => l | None => PList [] end in
     n <~ len deleted_faces ;;
     print ("Deleted " ++ str_of_Z n ++ " face(s).") ;;
     ret (PDict [ ("status", PStr "success"); ("deleted", deleted_faces) ]))
    (fun e =>
       print ("Error deleting faces: " ++ e) ;;
       ret (status_message "error" e)).

(** *** API endpoints *)

(** What a view function returns: the JSON payload and the status code,
    200 unless the view gives another. *)
Record http_response : Type := {
  status : Z;
  payload : pyval
}.

Definition jsonify (v : pyval) : http_response := {| status := 200; payload := v |}.

Definition jsonify_with (v : pyval) (code : Z) : http_response :=
  {| status := code; payload := v |}.

Definition health_check : M http_response :=
  ret (jsonify (PDict [ ("status", PStr "healthy") ])).

Definition api_get_students (W : World) : M http_response :=
  students <- get_students W ;;
  ret (jsonify students).

Definition required_fields : list string :=
  [ "name"; "branch"; "year"; "roll_number"; "email" ].

(** The loop over [required_fields]: the first field that is not in
    [data], if there is one. *)
Fixpoint first_missing (data : pyval) (fields : list string) : outcome (option string) :=
  match fields with
  | [] => Ret None
  | field :: rest =>
      obind (contains field data) (fun present =>
        if negb present then Ret (Some field) else first_missing data rest)
  end.

Definition api_create_student (W : World) (data : pyval) : M http_response :=
  missing <~ first_missing data required_fields ;;
  match missing with
  | Some field =>
      ret (jsonify_with (status_message "error" ("Missing required field: " ++ field)) 400)
  | None =>
      name <~ getitem data "name" ;;
      branch <~ getitem data "branch" ;;
      year <~ getitem data "year" ;;
      roll_number <~ getitem data "roll_number" ;;
      email <~ getitem data "email" ;;
      result <- create_student W name branch year roll_number email ;;
      if truthy result then
        ret (jsonify (PDict [ ("status", PStr "success"); ("data", result) ]))
      else
        ret (jsonify_with (status_message "error" "Failed to create student") 500)
  end.

(** [image.split(',')[1] if ',' in image else image] *)
Definition strip_data_uri (image : pyval) : outcome pyval :=
  obind (contains "," image) (fun has_comma =>
    if has_comma then obind (split_comma image) (fun parts => getindex parts 1)
    else Ret image).

Definition api_register_face (W : World) (data : pyval) : M http_response :=
  no_image <~ obind (contains "image" data) (fun b => Ret (negb b)) ;;
  missing <~ (if no_image then Ret true
              else obind (contains "roll_number" data) (fun b => Ret (negb b))) ;;
  if missing then
    ret (jsonify_with (status_message "error" "Missing image or roll_number") 400)
  else
    roll_number <~ getitem data "roll_number" ;;
    student <- get_student_by_roll_number W roll_number ;;
    not_found <~ (if negb (truthy student) then Ret true
                  else obind (len student) (fun n => Ret (n =? 0))) ;;
    if not_found then
      ret (jsonify_with (status_message "error" "Student not found") 404)
    else
      student <~ getindex student 0 ;;
      create_collection W (collection_id W) ;;
      image <~ getitem data "image" ;;
      image_base64 <~ strip_data_uri image ;;
      external_id <~ getitem student "id" ;;
      result <- index_faces_from_base64 W (collection_id W) image_base64 external_id ;;
      ret (jsonify result).

Definition api_recognize_face (W : World) (data : pyval) : M http_response :=
  no_image <~ obind (contains "image" data) (fun b => Ret (negb b)) ;;
  if no_image then
    ret (jsonify_with (status_message "error" "Missing image") 400)
  else
    image <~ getitem data "image" ;;
    image_base64 <~ strip_data_uri image ;;
    result <- search_faces_from_base64 W (collection_id W) image_base64 80 ;;
    result_status <~ getitem result "status" ;;
    matched <~ (if eq_str result_status "success"
                then obind (getitem result "matches") (fun ms => Ret (truthy ms))
                else Ret false) ;;
    if matched then
      matches <~ getitem result "matches" ;;
      match_ <~ getindex matches 0 ;;
      student_id <~ getitem match_ "external_id" ;;
      student <- get_student_by_id W student_id ;;
      found <~ (if truthy student then obind (len student) (fun n => Ret (n >? 0))
                else Ret false) ;;
      if found then
        student <~ getindex student 0 ;;
        similarity <~ getitem match_ "similarity" ;;
        record_attendance W student_id similarity ;;
        ret (jsonify (PDict [ ("status", PStr "success");
                              ("match", match_);
                              ("student", student) ]))
      else
        ret (jsonify result)
    else
      ret (jsonify result).

(** [limit] is [request.args.get('limit', 50)]. *)
Definition api_get_attendance (W : World) (limit_arg : option string) : M http_response :=
  let limit := match limit_arg with Some s => PStr s | None => PInt 50 end in
  attendance <- get_attendance_records W limit ;;
  ret (jsonify attendance).

(** ** Vocabulary of the properties *)

(** The request [supabase_request] sends for a method it knows, and the
    answer of the store to it. *)
Definition supported (method : string) : bool :=
  existsb (String.eqb method) [ "GET"; "POST"; "PUT"; "DELETE" ].

Definition store_kwarg (method : string) (data params : pyval) : http_kwarg :=
  if ((method =? "POST") || (method =? "PUT"))%string then Json data else Params params.

Definition store_call (W : World) (method endpoint : string) (data params : pyval)
    : event :=
  EvHttp method (str_of_env (SUPABASE_URL W) ++ endpoint) (supabase_headers W)
    (store_kwarg method data params).

Definition store_answer (W : World) (h : history) (method endpoint : string)
    (data params : pyval) : response :=
  requests_send W h method (str_of_env (SUPABASE_URL W) ++ endpoint)
    (supabase_headers W) (store_kwarg method data params).

(** An attendance write: a POST to the attendance table of the store. *)
Definition is_attendance_write (W : World) (e : event) : bool :=
  match e with
  | EvHttp method url _ _ =>
      ((method =? "POST") && (url =? str_of_env (SUPABASE_URL W) ++ "/rest/v1/attendance"))%string
  | _ => false
  end.

Definition attendance_writes (W : World) (evs : list event) : list event :=
  filter (is_attendance_write W) evs.

(** A call of the face service, and an enrollment among them. *)
Definition is_face_service_call (e : event) : bool :=
  match e with
  | EvPrint _ | EvHttp _ _ _ _ => false
  | _ => true
  end.

Definition is_index_faces (e : event) : bool :=
  match e with
  | EvIndexFaces _ _ _ _ => true
  | _ => false
  end.

Definition is_create_collection (e : event) : bool :=
  match e with
  | EvCreateCollection _ => true
  | _ => false
  end.

Definition is_print (e : event) : bool :=
  match e with
  | EvPrint _ => true
  | _ => false
  end.

(** The external identifier [search_faces_from_base64] reports for a match. *)
Definition external_id_of (m : face_match) : string :=
  match match_external_image_id m with
  | Some x => x
  | None => "unknown"
  end.

(** The result of a successful search. *)
Definition search_success (face_matches : list face_match) : pyval :=
  PDict [ ("status", PStr "success");
          ("matches", PList (map match_entry face_matches)) ].

(** The piece of a string before its first comma (the whole string when
    it has none), which is what [split(',')] puts first. *)
Fixpoint up_to_comma (s : string) : string :=
  match s with
  | EmptyString => EmptyString
  | String c s' => if Ascii.eqb c "," then EmptyString else String c (up_to_comma s')
  end.

(** The specification's reading of the prefix stripping: everything after
    the first comma. *)
Fixpoint after_first_comma (s : string) : string :=
  match s with
  | EmptyString => EmptyString
  | String c s' => if Ascii.eqb c "," then s' else after_first_comma s'
  end.

(** What the source's expression leaves of a string. *)
Definition stripped (s : string) : string :=
  if str_contains "," s then up_to_comma (after_first_comma s) else s.

(** The kinds of events the further properties count. *)
Definition is_http (e : event) : bool :=
  match e with
  | EvHttp _ _ _ _ => true
  | _ => false
  end.

(** A request to the store that is not a read. *)
Definition is_store_write (e : event) : bool :=
  match e with
  | EvHttp method _ _ _ => negb (method =? "GET")%string
  | _ => false
  end.

Definition is_deletion (e : event) : bool :=
  match e with
  | EvDeleteCollection _ | EvDeleteFaces _ _ => true
  | _ => false
  end.

(** A run that, from any history, emits at most [n] events of a kind. *)
Definition emits_at_most {A} (kind : event -> bool) (n : nat) (m : Run.M A) : Prop :=
  forall h, (List.length (filter kind (snd (m h))) <= n)%nat.

(** An outcome that is not a [ClientError], and a run that lets none
    escape, from any history. *)
Definition no_ClientError {A} (o : outcome A) : Prop :=
  forall msg, o <> Raise (ClientError msg).

Definition catches_ClientError {A} (m : Run.M A) : Prop :=
  forall h, no_ClientError (fst (m h)).

(** ** Worlds to run the service in *)

Module Fixtures.

Definition student_S1 : pyval :=
  PDict [ ("id", PStr "S1"); ("name", PStr "Asha"); ("branch", PStr "CSE");
          ("year", PInt 2); ("roll_number", PStr "21CS001");
          ("email", PStr "asha@example.edu") ].

Definition top_match : face_match :=
  {| match_face_id := "face-1";
     match_similarity := 93.2%float;
     match_external_image_id := Some "S1" |}.

Definition stranger_match : face_match :=
  {| match_face_id := "face-9";
     match_similarity := 88.5%float;
     match_external_image_id := Some "S9" |}.

(** A store that knows one student, [S1] with roll number [21CS001], and
    accepts every write. *)
Definition campus_store (method url : string) : response :=
  if (method =? "POST")%string then
    {| status_code := 201; text := "[{}]"; json := Some (PList [PDict []]) |}
  else if str_contains "id=eq.S1&" url || str_contains "roll_number=eq.21CS001&" url then
    {| status_code := 200; text := "[...]"; json := Some (PList [student_S1]) |}
  else
    {| status_code := 200; text := "[]"; json := Some (PList []) |}.

(** A store that fails every request. *)
Definition broken_store (method url : string) : response :=
  {| status_code := 500; text := "Internal Server Error"; json := None |}.

(** The collections a history has created. *)
Fixpoint created (h : history) : list string :=
  match h with
  | [] => []
  | EvCreateCollection c :: h' => c :: created h'
  | _ :: h' => created h'
  end.

(** A world over a store and the faces a search finds; a collection exists
    once it was created. *)
Definition world (store : string -> string -> response) (faces : list face_match)
    : World :=
  {| SUPABASE_URL := Some "https://db.example";
     SUPABASE_KEY := Some "service-key";
     COLLECTION_ID := None;
     py_repr := fun _ => "<value>";
     b64decode := fun s => Some (list_byte_of_string s);
     requests_send := fun _ method url _ _ => store method url;
     rekognition_list_collections := fun h => inr (created h);
     rekognition_create_collection := fun _ c => inr ("aws:rekognition:" ++ c);
     rekognition_delete_collection := fun _ _ => inr tt;
     rekognition_index_faces := fun _ _ _ _ _ => inr [ "face-1" ];
     rekognition_search_faces_by_image := fun _ _ _ _ _ => inr faces;
     rekognition_delete_faces := fun _ _ _ => inr None |}.

Definition campus : World := world campus_store [ top_match ].
Definition campus_with_stranger : World := world campus_store [ stranger_match ].
Definition outage : World := world broken_store [ top_match ].

Definition png_payload : pyval :=
  PDict [ ("image", PStr "data:image/png;base64,AAAA") ].

End Fixtures.

(** Worlds in which the face service misbehaves. *)
Module Outages.

(** A face service that raises a [ClientError] with one message on every call. *)
Definition raising (msg : string) : World :=
  {| SUPABASE_URL := Some "https://db.example";
     SUPABASE_KEY := Some "service-key";
     COLLECTION_ID := None;
     py_repr := fun _ => "<value>";
     b64decode := fun s => Some (list_byte_of_string s);
     requests_send := fun _ method url _ _ => Fixtures.campus_store method url;
     rekognition_list_collections := fun _ => inl msg;
     rekognition_create_collection := fun _ _ => inl msg;
     rekognition_delete_collection := fun _ _ => inl msg;
     rekognition_index_faces := fun _ _ _ _ _ => inl msg;
     rekognition_search_faces_by_image := fun _ _ _ _ _ => inl msg;
     rekognition_delete_faces := fun _ _ _ => inl msg |}.

(** A face service that sees no face in any image. *)
Definition blind : World :=
  {| SUPABASE_URL := Some "https://db.example";
     SUPABASE_KEY := Some "service-key";
     COLLECTION_ID := Some "faces";
     py_repr := fun _ => "<value>";
     b64decode := fun s => Some (list_byte_of_string s);
     requests_send := fun _ method url _ _ => Fixtures.campus_store method url;
     rekognition_list_collections := fun h => inr (Fixtures.created h);
     rekognition_create_collection := fun _ c => inr ("aws:rekognition:" ++ c);
     rekognition_delete_collection := fun _ _ => inr tt;
     rekognition_index_faces := fun _ _ _ _ _ => inr [];
     rekognition_search_faces_by_image := fun _ _ _ _ _ => inr [];
     rekognition_delete_faces := fun _ _ _ => inr None |}.

(** A world whose decoder rejects every string. *)
Definition undecoding : World :=
  {| SUPABASE_URL := Some "https://db.example";
     SUPABASE_KEY := Some "service-key";
     COLLECTION_ID := Some "faces";
     py_repr := fun _ => "<value>";
     b64decode := fun _ => None;
     requests_send := fun _ method url _ _ => Fixtures.campus_store method url;
     rekognition_list_collections := fun h => inr (Fixtures.created h);
     rekognition_create_collection := fun _ c => inr ("aws:rekognition:" ++ c);
     rekognition_delete_collection := fun _ _ => inr tt;
     rekognition_index_faces := fun _ _ _ _ _ => inr [ "face-1" ];
     rekognition_search_faces_by_image := fun _ _ _ _ _ => inr [];
     rekognition_delete_faces := fun _ _ _ => inr None |}.

End Outages.

(** * Properties *)

(** ** Runs, step by step *)

Lemma bind_lift_Ret {A B} (a : A) (k : A -> M B) (h : history) :
  bind (lift (Ret a)) k h = k a h.
Proof.
  unfold bind, lift. rewrite app_nil_r. destruct (k a h); reflexivity.
Qed.

Lemma bind_lift_Raise {A B} (e : exn) (k : A -> M B) (h : history) :
  bind (lift (Raise e)) k h = (Raise e, []).
Proof. reflexivity. Qed.

Lemma bind_Ret {A B} (m : M A) (k : A -> M B) (h : history) a evs :
  m h = (Ret a, evs) ->
  bind m k h = (fst (k a (h ++ evs)%list), (evs ++ snd (k a (h ++ evs)%list))%list).
Proof.
  intros Hm. unfold bind. rewrite Hm. destruct (k a (h ++ evs)%list); reflexivity.
Qed.

Lemma bind_Raise {A B} (m : M A) (k : A -> M B) (h : history) e evs :
  m h = (Raise e, evs) -> bind m k h = (Raise e, evs).
Proof. intros Hm. unfold bind. rewrite Hm. reflexivity. Qed.

(** ** The record store client *)

Lemma supported_inv (method : string) :
  supported method = true ->
  method = "GET" \/ method = "POST" \/ method = "PUT" \/ method = "DELETE".
Proof.
  unfold supported. simpl. rewrite !orb_true_iff, !String.eqb_eq.
  intuition discriminate.
Qed.

(** One run of [supabase_request] for a method it knows, in full. *)
Lemma supabase_request_run W method endpoint data params h :
  supported method = true ->
  supabase_request W method endpoint data params h =
    if status_code (store_answer W h method endpoint data params) >=? 400 then
      (Ret PNone,
       [ store_call W method endpoint data params;
         EvPrint ("Error: "
                  ++ str_of_Z (status_code (store_answer W h method endpoint data params)));
         EvPrint (text (store_answer W h method endpoint data params)) ])
    else
      (Ret (match json (store_answer W h method endpoint data params) with
            | Some v => v
            | None => PStr (text (store_answer W h method endpoint data params))
            end),
       [ store_call W method endpoint data params ]).
Proof.
  intros Hm.
  destruct (supported_inv _ Hm) as [-> | [-> | [-> | ->]]];
    unfold supabase_request, store_answer, store_call, store_kwarg, bind, requests;
    cbn [String.eqb Ascii.eqb Bool.eqb orb andb];
    match goal with
    | |- context [status_code ?r >=? 400] => destruct (status_code r >=? 400)
    end;
    cbn [print ret app];
    try reflexivity;
    match goal with
    | |- context [json ?r] => destruct (json r)
    end; reflexivity.
Qed.

(** An unknown method sends nothing: [response] is never bound. *)
Lemma supabase_request_unsupported W method endpoint data params h :
  supported method = false ->
  supabase_request W method endpoint data params h = (Raise UnboundLocalError, []).
Proof.
  unfold supported. simpl. rewrite !orb_false_iff.
  intros (H1 & H2 & H3 & H4 & _).
  unfold supabase_request, bind. rewrite H1, H2, H3, H4. reflexivity.
Qed.

(** C7. Whenever [supabase_request] has sent its request (the method is
    one of the four it knows) and the store answers with a status of 400
    or more, it returns [None] without raising, after sending that one
    request and printing the status and then the body; on a status below
    400 it returns the parsed JSON body, and the raw text when the body
    is not JSON, and prints nothing. *)
Theorem supabase_request_contract W h method endpoint data params :
  supported method = true ->
  (400 <= status_code (store_answer W h method endpoint data params) ->
   supabase_request W method endpoint data params h =
     (Ret PNone,
      [ store_call W method endpoint data params;
        EvPrint ("Error: "
                 ++ str_of_Z (status_code (store_answer W h method endpoint data params)));
        EvPrint (text (store_answer W h method endpoint data params)) ]))
  /\
  (status_code (store_answer W h method endpoint data params) < 400 ->
   (forall v,
      json (store_answer W h method endpoint data params) = Some v ->
      supabase_request W method endpoint data params h =
        (Ret v, [ store_call W method endpoint data params ]))
   /\
   (json (store_answer W h method endpoint data params) = None ->
    supabase_request W method endpoint data params h =
      (Ret (PStr (text (store_answer W h method endpoint data params))),
       [ store_call W method endpoint data params ]))).
Proof.
  intros Hm. rewrite (supabase_request_run W method endpoint data params h Hm).
  split.
  - intros Hs.
    replace (status_code (store_answer W h method endpoint data params) >=? 400)
      with true by (symmetry; apply Z.geb_le; lia).
    reflexivity.
  - intros Hs.
    replace (status_code (store_answer W h method endpoint data params) >=? 400)
      with false by (symmetry; rewrite Z.geb_leb; apply Z.leb_gt; lia).
    split.
    + intros v Hv. rewrite Hv. reflexivity.
    + intros Hv. rewrite Hv. reflexivity.
Qed.

Lemma supabase_request_contract_witness :
  supabase_request Fixtures.outage "GET" "/rest/v1/students?select=*" PNone PNone [] =
    (Ret PNone,
     [ EvHttp "GET" "https://db.example/rest/v1/students?select=*"
         (supabase_headers Fixtures.outage) (Params PNone);
       EvPrint "Error: 500";
       EvPrint "Internal Server Error" ]).
Proof.
  apply (proj1 (supabase_request_contract Fixtures.outage []
                  "GET" "/rest/v1/students?select=*" PNone PNone eq_refl)).
  vm_compute. discriminate.
Defined.

(** ** Stripping the data-URI prefix *)

Lemma str_contains_comma_cons c s :
  str_contains "," (String c s) = Ascii.eqb c "," || str_contains "," s.
Proof.
  cbn [str_contains String.prefix].
  destruct (ascii_dec "," c) as [<- | Hne].
  - destruct s; reflexivity.
  - destruct (Ascii.eqb_spec c ",") as [-> | _]; [congruence | reflexivity].
Qed.

Lemma str_split_comma s :
  str_split "," s =
    up_to_comma s
    :: (if str_contains "," s then str_split "," (after_first_comma s) else []).
Proof.
  induction s as [| c s IH].
  - reflexivity.
  - rewrite str_contains_comma_cons. cbn [str_split up_to_comma after_first_comma].
    destruct (Ascii.eqb c ",").
    + reflexivity.
    + rewrite IH. reflexivity.
Qed.

Lemma strip_data_uri_str s : strip_data_uri (PStr s) = Ret (PStr (stripped s)).
Proof.
  unfold strip_data_uri, stripped. cbn [contains obind].
  destruct (str_contains "," s) eqn:Hc; [| reflexivity].
  cbn [split_comma obind getindex].
  rewrite str_split_comma, Hc. cbn [map nth_error].
  rewrite (str_split_comma (after_first_comma s)). reflexivity.
Qed.

Lemma up_to_comma_clean s : str_contains "," (up_to_comma s) = false.
Proof.
  induction s as [| c s IH]; [reflexivity |].
  cbn [up_to_comma]. destruct (Ascii.eqb c ",") eqn:Hc; [reflexivity |].
  rewrite str_contains_comma_cons, Hc, IH. reflexivity.
Qed.

Lemma up_to_comma_id s : str_contains "," s = false -> up_to_comma s = s.
Proof.
  induction s as [| c s IH]; [reflexivity |].
  rewrite str_contains_comma_cons. intros H. apply orb_false_iff in H as [Hc Hs].
  cbn [up_to_comma]. rewrite Hc, (IH Hs). reflexivity.
Qed.

Lemma stripped_clean s : str_contains "," s = false -> stripped s = s.
Proof. unfold stripped. intros ->. reflexivity. Qed.

Lemma stripped_idempotent s : stripped (stripped s) = stripped s.
Proof.
  apply stripped_clean. unfold stripped.
  destruct (str_contains "," s) eqn:Hc; [apply up_to_comma_clean | exact Hc].
Qed.

Lemma contains_comma_app pre rest :
  str_contains "," (pre ++ String "," rest) = true.
Proof.
  induction pre as [| c pre IH]; cbn [String.append].
  - rewrite str_contains_comma_cons. reflexivity.
  - rewrite str_contains_comma_cons, IH. apply orb_true_r.
Qed.

Lemma after_first_comma_app pre rest :
  str_contains "," pre = false ->
  after_first_comma (pre ++ String "," rest) = rest.
Proof.
  induction pre as [| c pre IH]; cbn [String.append after_first_comma].
  - reflexivity.
  - rewrite str_contains_comma_cons. intros H. apply orb_false_iff in H as [Hc Hs].
    rewrite Hc. exact (IH Hs).
Qed.

Lemma stripped_segment pre rest :
  str_contains "," pre = false ->
  stripped (pre ++ String "," rest) = up_to_comma rest.
Proof.
  intros Hpre. unfold stripped.
  rewrite contains_comma_app, (after_first_comma_app _ _ Hpre). reflexivity.
Qed.

(** ** What the endpoints read of a request *)

Lemma lookup_has_key k d v : lookup k d = Some v -> has_key k d = true.
Proof. unfold has_key. intros ->. reflexivity. Qed.

(** [api_recognize_face] reads nothing of a JSON object but its image. *)
Lemma api_recognize_face_image W h d image image_base64 :
  lookup "image" d = Some image ->
  strip_data_uri image = Ret image_base64 ->
  api_recognize_face W (PDict d) h =
    (result <- search_faces_from_base64 W (collection_id W) image_base64 80 ;;
     result_status <~ getitem result "status" ;;
     matched <~ (if eq_str result_status "success"
                 then obind (getitem result "matches") (fun ms => Ret (truthy ms))
                 else Ret false) ;;
     if matched then
       matches <~ getitem result "matches" ;;
       match_ <~ getindex matches 0 ;;
       student_id <~ getitem match_ "external_id" ;;
       student <- get_student_by_id W student_id ;;
       found <~ (if truthy student then obind (len student) (fun n => Ret (n >? 0))
                 else Ret false) ;;
       if found then
         student <~ getindex student 0 ;;
         similarity <~ getitem match_ "similarity" ;;
         record_attendance W student_id similarity ;;
         ret (jsonify (PDict [ ("status", PStr "success");
                               ("match", match_);
                               ("student", student) ]))
       else
         ret (jsonify result)
     else
       ret (jsonify result)) h.
Proof.
  intros Hd Hstrip. unfold api_recognize_face.
  cbn [contains obind getitem]. rewrite (lookup_has_key _ _ _ Hd), Hd. cbn [negb].
  rewrite bind_lift_Ret. cbn iota.
  rewrite bind_lift_Ret, Hstrip, bind_lift_Ret. reflexivity.
Qed.

Lemma bind_ext {A B} (m : M A) (k1 k2 : A -> M B) (h : history) :
  (forall a h', k1 a h' = k2 a h') -> bind m k1 h = bind m k2 h.
Proof.
  intros Hk. unfold bind. destruct (m h) as [[a | e] evs]; [| reflexivity].
  rewrite Hk. reflexivity.
Qed.

(** Neither endpoint tells an image from its stripped form. *)
Lemma api_recognize_face_stripped W h d s :
  lookup "image" d = Some (PStr s) ->
  api_recognize_face W (PDict d) h =
  api_recognize_face W (PDict [ ("image", PStr (stripped s)) ]) h.
Proof.
  intros Hd.
  rewrite (api_recognize_face_image W h d _ _ Hd (strip_data_uri_str s)).
  rewrite (api_recognize_face_image W h [ ("image", PStr (stripped s)) ] _ _ eq_refl
             (strip_data_uri_str (stripped s))).
  rewrite stripped_idempotent. reflexivity.
Qed.

Lemma api_register_face_stripped W h d s roll_number :
  lookup "image" d = Some (PStr s) ->
  lookup "roll_number" d = Some roll_number ->
  api_register_face W (PDict d) h =
  api_register_face W
    (PDict [ ("image", PStr (stripped s)); ("roll_number", roll_number) ]) h.
Proof.
  intros Hi Hr. unfold api_register_face.
  cbn [contains obind getitem].
  rewrite (lookup_has_key _ _ _ Hi), (lookup_has_key _ _ _ Hr), Hi, Hr.
  change (has_key "image" [("image", PStr (stripped s)); ("roll_number", roll_number)])
    with true.
  change (has_key "roll_number" [("image", PStr (stripped s)); ("roll_number", roll_number)])
    with true.
  change (lookup "image" [("image", PStr (stripped s)); ("roll_number", roll_number)])
    with (Some (PStr (stripped s))).
  change (lookup "roll_number" [("image", PStr (stripped s)); ("roll_number", roll_number)])
    with (Some roll_number).
  repeat (rewrite bind_lift_Ret; cbn [negb]; cbn iota).
  apply bind_ext. intros student h1.
  apply bind_ext. intros not_found h2. destruct not_found; [reflexivity |].
  apply bind_ext. intros student0 h3.
  apply bind_ext. intros _ h4.
  rewrite !bind_lift_Ret, !strip_data_uri_str, !bind_lift_Ret, stripped_idempotent.
  reflexivity.
Qed.

(** C4, as the code has it.  On a string the expression
    [image.split(',')[1] if ',' in image else image] never raises; it
    leaves a string without a comma as it is, and of a string with a comma
    it keeps the piece between the first comma and the next one, which is
    everything after the first comma exactly when no second comma follows.
    It is idempotent, it sends both [data:image/png;base64,AAAA] and [AAAA]
    to [AAAA], and either endpoint runs the same on an image and on its
    stripped form. *)
Theorem strip_data_uri_keeps_second_piece :
  (forall s, strip_data_uri (PStr s) = Ret (PStr (stripped s)))
  /\ (forall s, str_contains "," s = false -> stripped s = s)
  /\ (forall pre rest,
        str_contains "," pre = false ->
        stripped (pre ++ String "," rest) = up_to_comma rest)
  /\ (forall pre rest,
        str_contains "," pre = false -> str_contains "," rest = false ->
        stripped (pre ++ String "," rest) = rest
        /\ stripped (pre ++ String "," rest) = after_first_comma (pre ++ String "," rest))
  /\ (forall s, stripped (stripped s) = stripped s)
  /\ (forall s, obind (strip_data_uri (PStr s)) strip_data_uri = strip_data_uri (PStr s))
  /\ stripped "data:image/png;base64,AAAA" = "AAAA"
  /\ stripped "AAAA" = "AAAA"
  /\ (forall W h d s,
        lookup "image" d = Some (PStr s) ->
        api_recognize_face W (PDict d) h =
        api_recognize_face W (PDict [ ("image", PStr (stripped s)) ]) h)
  /\ (forall W h d s roll_number,
        lookup "image" d = Some (PStr s) ->
        lookup "roll_number" d = Some roll_number ->
        api_register_face W (PDict d) h =
        api_register_face W
          (PDict [ ("image", PStr (stripped s)); ("roll_number", roll_number) ]) h).
Proof.
  split; [exact strip_data_uri_str |].
  split; [exact stripped_clean |].
  split; [exact stripped_segment |].
  split.
  { intros pre rest Hpre Hrest.
    rewrite (stripped_segment _ _ Hpre), (after_first_comma_app _ _ Hpre).
    split; apply up_to_comma_id; exact Hrest. }
  split; [exact stripped_idempotent |].
  split.
  { intros s. rewrite strip_data_uri_str. cbn [obind].
    rewrite strip_data_uri_str, stripped_idempotent. reflexivity. }
  split; [reflexivity |].
  split; [reflexivity |].
  split; [exact api_recognize_face_stripped | exact api_register_face_stripped].
Qed.

Lemma strip_data_uri_keeps_second_piece_witness :
  stripped ("data:image/png;base64" ++ String "," "AAAA") = "AAAA"
  /\ api_recognize_face Fixtures.campus Fixtures.png_payload [] =
     api_recognize_face Fixtures.campus (PDict [ ("image", PStr "AAAA") ]) [].
Proof.
  split.
  - apply (proj1 (proj1 (proj2 (proj2 (proj2 strip_data_uri_keeps_second_piece)))
                    "data:image/png;base64" "AAAA" eq_refl eq_refl)).
  - apply (proj1 (proj2 (proj2 (proj2 (proj2 (proj2 (proj2 (proj2 (proj2
             strip_data_uri_keeps_second_piece))))))))
             Fixtures.campus [] [ ("image", PStr "data:image/png;base64,AAAA") ]
             "data:image/png;base64,AAAA" eq_refl).
Defined.

(** C4 as stated fails on an image with two commas: the code keeps only
    the piece between them, where removing the content up to the first
    comma would keep the second comma and what follows it. *)
Lemma strip_data_uri_drops_after_second_comma :
  strip_data_uri (PStr "a,b,c") = Ret (PStr "b")
  /\ after_first_comma "a,b,c" = "b,c"
  /\ strip_data_uri (PStr "a,b,c") <> Ret (PStr (after_first_comma "a,b,c")).
Proof.
  split; [reflexivity |]. split; [reflexivity |]. discriminate.
Qed.

(** ** Creating a student *)

Lemma first_missing_dict d fields :
  first_missing (PDict d) fields =
    Ret (hd_error (filter (fun field => negb (has_key field d)) fields)).
Proof.
  induction fields as [| field fields IH]; [reflexivity |].
  cbn [first_missing contains obind filter].
  destruct (has_key field d); cbn [negb hd_error]; [exact IH | reflexivity].
Qed.

Lemma create_student_run W name branch year roll_number email h :
  create_student W name branch year roll_number email h =
    supabase_request W "POST" "/rest/v1/students"
      (PDict [ ("name", name); ("branch", branch); ("year", year);
               ("roll_number", roll_number); ("email", email) ]) PNone h.
Proof. reflexivity. Qed.

(** The run of [api_create_student] on a JSON object that has the five
    fields. *)
Lemma api_create_student_valid W h d name branch year roll_number email :
  lookup "name" d = Some name ->
  lookup "branch" d = Some branch ->
  lookup "year" d = Some year ->
  lookup "roll_number" d = Some roll_number ->
  lookup "email" d = Some email ->
  api_create_student W (PDict d) h =
    (result <- create_student W name branch year roll_number email ;;
     if truthy result then
       ret (jsonify (PDict [ ("status", PStr "success"); ("data", result) ]))
     else
       ret (jsonify_with (status_message "error" "Failed to create student") 500)) h.
Proof.
  intros Hn Hb Hy Hr He. unfold api_create_student.
  rewrite first_missing_dict. unfold required_fields. cbn [filter].
  rewrite (lookup_has_key _ _ _ Hn), (lookup_has_key _ _ _ Hb),
    (lookup_has_key _ _ _ Hy), (lookup_has_key _ _ _ Hr), (lookup_has_key _ _ _ He).
  cbn [negb hd_error getitem]. rewrite Hn, Hb, Hy, Hr, He.
  rewrite !bind_lift_Ret. reflexivity.
Qed.

(** C8. On a JSON object, [api_create_student] looks only at which of the
    five keys are there, in the order name, branch, year, roll_number,
    email.  With the five keys present, whatever their values, validation
    passes: the run is that of [create_student] on those five values, and
    whenever the endpoint answers, it has sent the student to the store
    with those values and answers 200 or 500, never 400.  With a key
    absent, nothing is sent and the 400 message names the first absent key
    in that order: name before branch, branch before year, year before
    roll_number, roll_number before email. *)
Theorem api_create_student_validates_presence_in_order W h d :
  (forall name branch year roll_number email,
     lookup "name" d = Some name ->
     lookup "branch" d = Some branch ->
     lookup "year" d = Some year ->
     lookup "roll_number" d = Some roll_number ->
     lookup "email" d = Some email ->
     api_create_student W (PDict d) h =
       (result <- create_student W name branch year roll_number email ;;
        if truthy result then
          ret (jsonify (PDict [ ("status", PStr "success"); ("data", result) ]))
        else
          ret (jsonify_with (status_message "error" "Failed to create student") 500)) h
     /\
     (forall resp,
        fst (api_create_student W (PDict d) h) = Ret resp ->
        (exists evs,
           snd (api_create_student W (PDict d) h) =
             EvHttp "POST" (str_of_env (SUPABASE_URL W) ++ "/rest/v1/students")
               (supabase_headers W)
               (Json (PDict [ ("name", name); ("branch", branch); ("year", year);
                              ("roll_number", roll_number); ("email", email) ]))
             :: evs)
        /\ (status resp = 200 \/ status resp = 500)))
  /\
  (lookup "name" d = None ->
   api_create_student W (PDict d) h =
     (Ret {| status := 400;
             payload := PDict [ ("status", PStr "error");
                                ("message", PStr "Missing required field: name") ] |},
      []))
  /\
  (forall name,
     lookup "name" d = Some name ->
     lookup "branch" d = None ->
     api_create_student W (PDict d) h =
       (Ret {| status := 400;
               payload := PDict [ ("status", PStr "error");
                                  ("message", PStr "Missing required field: branch") ] |},
        []))
  /\
  (forall name branch,
     lookup "name" d = Some name ->
     lookup "branch" d = Some branch ->
     lookup "year" d = None ->
     api_create_student W (PDict d) h =
       (Ret {| status := 400;
               payload := PDict [ ("status", PStr "error");
                                  ("message", PStr "Missing required field: year") ] |},
        []))
  /\
  (forall name branch year,
     lookup "name" d = Some name ->
     lookup "branch" d = Some branch ->
     lookup "year" d = Some year ->
     lookup "roll_number" d = None ->
     api_create_student W (PDict d) h =
       (Ret {| status := 400;
               payload :=
                 PDict [ ("status", PStr "error");
                         ("message", PStr "Missing required field: roll_number") ] |},
        []))
  /\
  (forall name branch year roll_number,
     lookup "name" d = Some name ->
     lookup "branch" d = Some branch ->
     lookup "year" d = Some year ->
     lookup "roll_number" d = Some roll_number ->
     lookup "email" d = None ->
     api_create_student W (PDict d) h =
       (Ret {| status := 400;
               payload := PDict [ ("status", PStr "error");
                                  ("message", PStr "Missing required field: email") ] |},
        [])).
Proof.
  split.
  { intros name branch year roll_number email Hn Hb Hy Hr He.
    rewrite (api_create_student_valid W h d _ _ _ _ _ Hn Hb Hy Hr He).
    split; [reflexivity |].
    unfold bind. rewrite create_student_run, supabase_request_run by reflexivity.
    destruct (status_code _ >=? 400).
    - cbn [truthy ret app fst snd]. intros resp [= <-].
      split; [eexists; reflexivity | right; reflexivity].
    - match goal with
      | |- context [truthy ?r] => destruct (truthy r)
      end; cbn [ret app fst snd]; intros resp [= <-];
        (split; [eexists; reflexivity |]); [left | right]; reflexivity. }
  repeat split; intros;
    unfold api_create_student; rewrite first_missing_dict;
    unfold required_fields, has_key; cbn [filter];
    repeat match goal with
           | H : lookup _ d = _ |- _ => rewrite H
           end;
    cbn [negb hd_error]; rewrite bind_lift_Ret; reflexivity.
Qed.

Lemma api_create_student_validates_presence_in_order_witness :
  (forall resp,
     fst (api_create_student Fixtures.campus
            (PDict [ ("email", PStr ""); ("roll_number", PNone); ("year", PNone);
                     ("branch", PStr ""); ("name", PNone) ]) []) = Ret resp ->
     (exists evs,
        snd (api_create_student Fixtures.campus
               (PDict [ ("email", PStr ""); ("roll_number", PNone); ("year", PNone);
                        ("branch", PStr ""); ("name", PNone) ]) []) =
          EvHttp "POST" "https://db.example/rest/v1/students"
            (supabase_headers Fixtures.campus)
            (Json (PDict [ ("name", PNone); ("branch", PStr ""); ("year", PNone);
                           ("roll_number", PNone); ("email", PStr "") ]))
          :: evs)
     /\ (status resp = 200 \/ status resp = 500))
  /\
  api_create_student Fixtures.campus
    (PDict [ ("email", PStr "a@b.c"); ("name", PStr "Asha"); ("year", PInt 2) ]) [] =
    (Ret {| status := 400;
            payload := PDict [ ("status", PStr "error");
                               ("message", PStr "Missing required field: branch") ] |},
     []).
Proof.
  split.
  - apply (proj2 (proj1 (api_create_student_validates_presence_in_order Fixtures.campus []
                           [ ("email", PStr ""); ("roll_number", PNone); ("year", PNone);
                             ("branch", PStr ""); ("name", PNone) ])
                    PNone (PStr "") PNone PNone (PStr "")
                    eq_refl eq_refl eq_refl eq_refl eq_refl)).
  - apply (proj1 (proj2 (proj2 (api_create_student_validates_presence_in_order
                                  Fixtures.campus []
                                  [ ("email", PStr "a@b.c"); ("name", PStr "Asha");
                                    ("year", PInt 2) ])))
             (PStr "Asha"));
      reflexivity.
Defined.

(** ** The face service client *)

Lemma print_face_ids_run face_ids h :
  print_face_ids face_ids h =
    (Ret tt, map (fun face_id => EvPrint ("Face ID: " ++ face_id)) face_ids).
Proof.
  revert h. induction face_ids as [| face_id rest IH]; intros h; [reflexivity |].
  cbn [print_face_ids map]. unfold bind at 1. cbn [print].
  rewrite IH. reflexivity.
Qed.

Lemma Forall_print_face_ids (face_ids : list string) :
  Forall (fun e => is_print e = true)
    (map (fun face_id => EvPrint ("Face ID: " ++ face_id)) face_ids).
Proof. induction face_ids; constructor; [reflexivity | assumption]. Qed.

(** One enrollment, in full: a single call of the service, then prints. *)
Lemma index_faces_from_base64_run W collection_id image_base64 external_id h bytes :
  decode_image W image_base64 = Ret bytes ->
  exists result prints,
    index_faces_from_base64 W collection_id image_base64 external_id h =
      (Ret result,
       EvIndexFaces collection_id bytes
         (if truthy external_id then external_id else PStr "unknown") [ "ALL" ]
       :: prints)
    /\ Forall (fun e => is_print e = true) prints.
Proof.
  intros Hdec. unfold index_faces_from_base64, except_ClientError.
  rewrite Hdec, bind_lift_Ret. unfold bind at 1. unfold service at 1.
  destruct (rekognition_index_faces W h collection_id bytes _ _) as [msg | face_records].
  - cbn. eexists. eexists. split; [reflexivity | repeat constructor].
  - destruct face_records as [| face_id rest].
    + cbn. eexists. eexists. split; [reflexivity | repeat constructor].
    + unfold bind, print. rewrite print_face_ids_run. cbn [ret app].
      eexists. eexists. split; [reflexivity |].
      constructor; [reflexivity |]. rewrite app_nil_r.
      apply (Forall_print_face_ids (face_id :: rest)).
Qed.

(** Decoding raises nothing the clients catch. *)
Lemma decode_image_raises W image_base64 e :
  decode_image W image_base64 = Raise e -> e = TypeError \/ e = ValueError.
Proof.
  destruct image_base64; cbn; try (intros [= <-]; left; reflexivity).
  destruct (b64decode W s); [discriminate | intros [= <-]; right; reflexivity].
Qed.

Lemma decode_image_str W image_base64 bytes :
  decode_image W image_base64 = Ret bytes -> exists s, image_base64 = PStr s.
Proof. destruct image_base64; try discriminate. eauto. Qed.

Lemma index_faces_from_base64_undecoded W collection_id image_base64 external_id h e :
  decode_image W image_base64 = Raise e ->
  index_faces_from_base64 W collection_id image_base64 external_id h = (Raise e, []).
Proof.
  intros Hdec. unfold index_faces_from_base64, except_ClientError.
  rewrite Hdec, bind_lift_Raise.
  destruct (decode_image_raises _ _ _ Hdec) as [-> | ->]; reflexivity.
Qed.

(** C9. An enrollment whose external identifier is falsy ([None], the
    empty string, or any other falsy value) never hands that identifier to
    the face service: whenever the image decodes, the one [index_faces] call
    it makes carries ["unknown"], and in every case each [index_faces] call
    among its events carries ["unknown"]. *)
Theorem index_faces_falsy_external_id_is_unknown W h collection_id image_base64 external_id :
  truthy external_id = false ->
  Forall (fun e => match e with
                   | EvIndexFaces _ _ ExternalImageId _ => ExternalImageId = PStr "unknown"
                   | _ => True
                   end)
    (snd (index_faces_from_base64 W collection_id image_base64 external_id h))
  /\
  (forall bytes,
     decode_image W image_base64 = Ret bytes ->
     exists result prints,
       index_faces_from_base64 W collection_id image_base64 external_id h =
         (Ret result,
          EvIndexFaces collection_id bytes (PStr "unknown") [ "ALL" ] :: prints)
       /\ Forall (fun e => is_print e = true) prints).
Proof.
  intros Hfalsy.
  assert (Hrun : forall bytes,
             decode_image W image_base64 = Ret bytes ->
             exists result prints,
               index_faces_from_base64 W collection_id image_base64 external_id h =
                 (Ret result,
                  EvIndexFaces collection_id bytes (PStr "unknown") [ "ALL" ] :: prints)
               /\ Forall (fun e => is_print e = true) prints).
  { intros bytes Hdec.
    destruct (index_faces_from_base64_run W collection_id image_base64 external_id h
                bytes Hdec) as (result & prints & Hrun & Hprints).
    rewrite Hfalsy in Hrun. eauto. }
  split; [| exact Hrun].
  destruct (decode_image W image_base64) as [bytes | e] eqn:Hdec.
  - destruct (Hrun bytes eq_refl) as (result & prints & -> & Hprints).
    cbn [snd]. constructor; [reflexivity |].
    eapply Forall_impl; [| exact Hprints].
    intros [] He; try exact I; discriminate.
  - rewrite (index_faces_from_base64_undecoded _ _ _ _ _ _ Hdec). constructor.
Qed.

Lemma index_faces_falsy_external_id_is_unknown_witness :
  truthy (PStr "") = false
  /\ exists result prints,
       index_faces_from_base64 Fixtures.campus "attendance_collection"
         (PStr "AAAA") (PStr "") [] =
         (Ret result,
          EvIndexFaces "attendance_collection" (list_byte_of_string "AAAA")
            (PStr "unknown") [ "ALL" ] :: prints)
       /\ Forall (fun e => is_print e = true) prints.
Proof.
  split; [reflexivity |].
  apply (proj2 (index_faces_falsy_external_id_is_unknown Fixtures.campus []
                  "attendance_collection" (PStr "AAAA") (PStr "") eq_refl)).
  reflexivity.
Defined.

Lemma In_existsb_eqb (x : string) (l : list string) :
  In x l -> existsb (String.eqb x) l = true.
Proof.
  intros Hin. apply existsb_exists. exists x. split; [exact Hin | apply String.eqb_refl].
Qed.

Lemma create_collection_existing W h collection_id ids :
  rekognition_list_collections W h = inr ids ->
  In collection_id ids ->
  create_collection W collection_id h =
    (Ret (status_message "success" ("Collection '" ++ collection_id ++ "' already exists.")),
     [ EvListCollections;
       EvPrint ("Collection '" ++ collection_id ++ "' already exists.") ]).
Proof.
  intros Hlist Hin.
  unfold create_collection, except_ClientError, bind, service.
  rewrite Hlist, (In_existsb_eqb _ _ Hin). reflexivity.
Qed.

(** [create_collection] catches what the service raises: it always returns. *)
Lemma create_collection_returns W h collection_id :
  exists result, fst (create_collection W collection_id h) = Ret result.
Proof.
  unfold create_collection, except_ClientError, bind, service.
  destruct (rekognition_list_collections W h) as [msg | ids]; [cbn; eauto |].
  destruct (existsb (String.eqb collection_id) ids); [cbn; eauto |].
  destruct (rekognition_create_collection W _ collection_id); cbn; eauto.
Qed.

(** C5. When the listing the service returns holds the collection,
    [create_collection] reports success with the message that the
    collection already exists, after the listing call and one print: no
    creation request is issued.  Hence, of two calls in a row, the second
    one, for which the service lists the collection, only adds that
    listing call and that print to what the first one did. *)
Theorem create_collection_existing_is_noop W h collection_id :
  (forall ids,
     rekognition_list_collections W h = inr ids ->
     In collection_id ids ->
     create_collection W collection_id h =
       (Ret (status_message "success"
               ("Collection '" ++ collection_id ++ "' already exists.")),
        [ EvListCollections;
          EvPrint ("Collection '" ++ collection_id ++ "' already exists.") ])
     /\ filter is_create_collection (snd (create_collection W collection_id h)) = [])
  /\
  (forall ids,
     rekognition_list_collections W
       (h ++ snd (create_collection W collection_id h))%list = inr ids ->
     In collection_id ids ->
     (create_collection W collection_id ;; create_collection W collection_id) h =
       (Ret (status_message "success"
               ("Collection '" ++ collection_id ++ "' already exists.")),
        (snd (create_collection W collection_id h)
         ++ [ EvListCollections;
              EvPrint ("Collection '" ++ collection_id ++ "' already exists.") ])%list)).
Proof.
  split.
  - intros ids Hlist Hin.
    rewrite (create_collection_existing W h collection_id ids Hlist Hin).
    split; reflexivity.
  - intros ids Hlist Hin.
    destruct (create_collection_returns W h collection_id) as (r1 & Hr1).
    destruct (create_collection W collection_id h) as [o1 evs1] eqn:Hfirst.
    cbn [fst snd] in *. subst o1.
    rewrite (bind_Ret _ _ _ _ _ Hfirst).
    rewrite (create_collection_existing W _ collection_id ids Hlist Hin).
    reflexivity.
Qed.

Lemma create_collection_existing_is_noop_witness :
  (create_collection Fixtures.campus "attendance_collection" ;;
   create_collection Fixtures.campus "attendance_collection") [] =
    (Ret (status_message "success" "Collection 'attendance_collection' already exists."),
     [ EvListCollections;
       EvCreateCollection "attendance_collection";
       EvPrint "Collection 'attendance_collection' created. ARN: aws:rekognition:attendance_collection";
       EvListCollections;
       EvPrint "Collection 'attendance_collection' already exists." ]).
Proof.
  apply (proj2 (create_collection_existing_is_noop Fixtures.campus []
                  "attendance_collection") [ "attendance_collection" ]).
  - reflexivity.
  - left. reflexivity.
Defined.

(** ** Events of the two clients *)

Lemma bind_Ret_eq {A B} (m : M A) (k : A -> M B) (h : history) a evs r evs' :
  m h = (Ret a, evs) ->
  k a (h ++ evs)%list = (r, evs') ->
  bind m k h = (r, (evs ++ evs')%list).
Proof. intros Hm Hk. unfold bind. rewrite Hm, Hk. reflexivity. Qed.

(** A request to the store returns, after one HTTP call and prints. *)
Lemma supabase_request_returns W method endpoint data params h :
  supported method = true ->
  exists v prints,
    supabase_request W method endpoint data params h =
      (Ret v, store_call W method endpoint data params :: prints)
    /\ Forall (fun e => is_print e = true) prints.
Proof.
  intros Hm. rewrite (supabase_request_run _ _ _ _ _ _ Hm).
  destruct (status_code _ >=? 400); eexists; eexists;
    (split; [reflexivity | repeat constructor]).
Qed.

Lemma attendance_writes_app W evs evs' :
  attendance_writes W (evs ++ evs')%list =
    (attendance_writes W evs ++ attendance_writes W evs')%list.
Proof. apply filter_app. Qed.

Lemma attendance_writes_quiet W evs :
  Forall (fun e => is_face_service_call e || is_print e = true) evs ->
  attendance_writes W evs = [].
Proof.
  induction 1 as [| e evs He _ IH]; [reflexivity |].
  cbn [attendance_writes filter]. fold (attendance_writes W evs). rewrite IH.
  destruct e; try reflexivity; discriminate.
Qed.

Lemma attendance_writes_prints W evs :
  Forall (fun e => is_print e = true) evs -> attendance_writes W evs = [].
Proof.
  intros H. apply attendance_writes_quiet.
  eapply Forall_impl; [| exact H]. cbn beta. intros e ->. apply orb_true_r.
Qed.

Lemma get_student_by_id_writes_nothing W student_id h :
  exists student evs,
    get_student_by_id W student_id h = (Ret student, evs)
    /\ attendance_writes W evs = [].
Proof.
  unfold get_student_by_id.
  destruct (supabase_request_returns W "GET"
              ("/rest/v1/students?id=eq." ++ format W student_id ++ "&select=*")
              PNone PNone h eq_refl) as (v & prints & Hrun & Hprints).
  exists v. eexists. split; [exact Hrun |].
  cbn [attendance_writes filter store_call is_attendance_write String.eqb Ascii.eqb
         Bool.eqb andb].
  apply (attendance_writes_prints W _ Hprints).
Qed.

Lemma record_attendance_writes_once W student_id confidence h :
  exists v evs,
    record_attendance W student_id confidence h = (Ret v, evs)
    /\ attendance_writes W evs =
         [ store_call W "POST" "/rest/v1/attendance"
             (PDict [ ("student_id", student_id); ("confidence", confidence) ]) PNone ].
Proof.
  unfold record_attendance.
  destruct (supabase_request_returns W "POST" "/rest/v1/attendance"
              (PDict [ ("student_id", student_id); ("confidence", confidence) ])
              PNone h eq_refl) as (v & prints & Hrun & Hprints).
  exists v. eexists. split; [exact Hrun |].
  cbn [attendance_writes filter]. fold (attendance_writes W prints).
  rewrite (attendance_writes_prints W _ Hprints).
  unfold store_call at 1. cbn [is_attendance_write String.eqb Ascii.eqb Bool.eqb andb].
  rewrite String.eqb_refl. reflexivity.
Qed.

(** A search ends in one of three ways, and never touches the store. *)
Lemma search_faces_from_base64_cases W collection_id image_base64 threshold h :
  exists r evs,
    search_faces_from_base64 W collection_id image_base64 threshold h = (r, evs)
    /\ Forall (fun e => is_face_service_call e || is_print e = true) evs
    /\ ((exists fm fms bytes,
           r = Ret (search_success (fm :: fms))
           /\ decode_image W image_base64 = Ret bytes)
        \/ (exists msg, r = Ret (status_message "error" msg))
        \/ (exists e, r = Raise e)).
Proof.
  unfold search_faces_from_base64, except_ClientError.
  destruct (decode_image W image_base64) as [bytes | e] eqn:Hdec.
  - rewrite bind_lift_Ret. unfold bind at 1. unfold service at 1.
    destruct (rekognition_search_faces_by_image W h collection_id bytes threshold 5)
      as [msg | [| fm fms]].
    + destruct (str_contains "InvalidParameterException" msg
                && str_contains "No face detected" msg);
        cbn; eexists; eexists; (split; [reflexivity |]);
        (split; [repeat constructor | right; left; eauto]).
    + cbn. eexists. eexists. split; [reflexivity |].
      split; [repeat constructor | right; left; eauto].
    + cbn. eexists. eexists. split; [reflexivity |].
      split; [repeat constructor | left].
      exists fm, fms, bytes. split; reflexivity.
  - rewrite bind_lift_Raise.
    exists (Raise e), []. split.
    + destruct (decode_image_raises _ _ _ Hdec) as [-> | ->]; reflexivity.
    + split; [constructor | right; right; eauto].
Qed.

Lemma search_faces_from_base64_quiet W collection_id image_base64 threshold h :
  attendance_writes W
    (snd (search_faces_from_base64 W collection_id image_base64 threshold h)) = [].
Proof.
  destruct (search_faces_from_base64_cases W collection_id image_base64 threshold h)
    as (r & evs & -> & Hquiet & _).
  apply (attendance_writes_quiet W _ Hquiet).
Qed.

(** ** Recognizing a face *)

Lemma search_success_status l : getitem (search_success l) "status" = Ret (PStr "success").
Proof. reflexivity. Qed.

Lemma search_success_matches l :
  getitem (search_success l) "matches" = Ret (PList (map match_entry l)).
Proof. reflexivity. Qed.

Lemma match_entry_external_id m :
  getitem (match_entry m) "external_id" = Ret (PStr (external_id_of m)).
Proof. reflexivity. Qed.

Lemma match_entry_similarity m :
  getitem (match_entry m) "similarity" = Ret (PFloat (match_similarity m)).
Proof. reflexivity. Qed.

Lemma status_message_status s msg : getitem (status_message s msg) "status" = Ret (PStr s).
Proof. reflexivity. Qed.

Create Rewrite HintDb pyrun.
#[local] Hint Rewrite search_success_status search_success_matches
  match_entry_external_id match_entry_similarity status_message_status : pyrun.

(** Evaluates the pure steps at the head of a run. *)
Ltac pure_steps :=
  repeat first
    [ rewrite bind_lift_Ret
    | rewrite bind_lift_Raise
    | progress autorewrite with pyrun
    | progress cbn [eq_str obind truthy map getindex nth_error String.eqb Ascii.eqb
                      Bool.eqb]
    | progress cbn iota beta ].

Lemma positive_length {A} (x : A) (l : list A) :
  (Z.of_nat (List.length (x :: l)) >? 0) = true.
Proof. apply Z.gtb_lt. cbn [List.length]. lia. Qed.

(** C1. A recognition whose face search succeeds with a non-empty list
    of matches, and whose lookup of the top match's external identifier
    returns a non-empty list of students, answers 200 with the top match
    and the first student embedded.  Among everything it does there is
    exactly one attendance write: a POST to the attendance table carrying
    that external identifier, the one the student was found by, as
    [student_id] and the top match's similarity as [confidence].  The
    answer of the store to that write is not looked at. *)
Theorem api_recognize_face_records_attendance W h d s fm fms evs1 student others evs2 :
  lookup "image" d = Some (PStr s) ->
  search_faces_from_base64 W (collection_id W) (PStr (stripped s)) 80 h =
    (Ret (search_success (fm :: fms)), evs1) ->
  get_student_by_id W (PStr (external_id_of fm)) (h ++ evs1)%list =
    (Ret (PList (student :: others)), evs2) ->
  exists evs3,
    api_recognize_face W (PDict d) h =
      (Ret (jsonify (PDict [ ("status", PStr "success");
                             ("match", match_entry fm);
                             ("student", student) ])),
       (evs1 ++ evs2 ++ evs3)%list)
    /\ attendance_writes W (evs1 ++ evs2 ++ evs3)%list =
         [ store_call W "POST" "/rest/v1/attendance"
             (PDict [ ("student_id", PStr (external_id_of fm));
                      ("confidence", PFloat (match_similarity fm)) ]) PNone ].
Proof.
  intros Hd Hsearch Hstudent.
  destruct (record_attendance_writes_once W (PStr (external_id_of fm))
              (PFloat (match_similarity fm)) ((h ++ evs1) ++ evs2)%list)
    as (v & evs3 & Hrec & Hwrites).
  exists (evs3 ++ [])%list. split.
  - rewrite (api_recognize_face_image W h d _ _ Hd (strip_data_uri_str s)).
    eapply bind_Ret_eq; [exact Hsearch |]. pure_steps.
    eapply bind_Ret_eq; [exact Hstudent |].
    cbn [truthy len obind]. rewrite positive_length. pure_steps.
    eapply bind_Ret_eq; [exact Hrec | reflexivity].
  - rewrite app_nil_r, !attendance_writes_app, Hwrites.
    pose proof (search_faces_from_base64_quiet W (collection_id W)
                  (PStr (stripped s)) 80 h) as Hq1.
    rewrite Hsearch in Hq1. cbn [snd] in Hq1. rewrite Hq1.
    destruct (get_student_by_id_writes_nothing W (PStr (external_id_of fm))
                (h ++ evs1)%list) as (st & ev & Hrun & Hq2).
    rewrite Hstudent in Hrun. injection Hrun as _ <-. rewrite Hq2. reflexivity.
Qed.

(** C2. A recognition whose face search succeeds with a non-empty list
    of matches, but whose lookup of the top match's external identifier
    returns nothing (an empty list, or [None] when the store fails),
    answers 200 with the search result as it is, and does nothing after
    the lookup: no attendance write is among its events. *)
Theorem api_recognize_face_unknown_student W h d s fm fms evs1 student evs2 :
  lookup "image" d = Some (PStr s) ->
  search_faces_from_base64 W (collection_id W) (PStr (stripped s)) 80 h =
    (Ret (search_success (fm :: fms)), evs1) ->
  get_student_by_id W (PStr (external_id_of fm)) (h ++ evs1)%list =
    (Ret student, evs2) ->
  truthy student = false ->
  api_recognize_face W (PDict d) h =
    (Ret (jsonify (search_success (fm :: fms))), (evs1 ++ evs2)%list)
  /\ attendance_writes W (evs1 ++ evs2)%list = [].
Proof.
  intros Hd Hsearch Hstudent Hfalsy. split.
  - rewrite (api_recognize_face_image W h d _ _ Hd (strip_data_uri_str s)).
    rewrite <- (app_nil_r evs2).
    eapply bind_Ret_eq; [exact Hsearch |]. pure_steps.
    eapply bind_Ret_eq; [exact Hstudent |].
    rewrite Hfalsy. pure_steps. reflexivity.
  - rewrite attendance_writes_app.
    pose proof (search_faces_from_base64_quiet W (collection_id W)
                  (PStr (stripped s)) 80 h) as Hq1.
    rewrite Hsearch in Hq1. cbn [snd] in Hq1. rewrite Hq1.
    destruct (get_student_by_id_writes_nothing W (PStr (external_id_of fm))
                (h ++ evs1)%list) as (st & ev & Hrun & Hq2).
    rewrite Hstudent in Hrun. injection Hrun as _ <-. exact Hq2.
Qed.

Lemma api_recognize_face_records_attendance_witness :
  exists evs3,
    api_recognize_face Fixtures.campus Fixtures.png_payload [] =
      (Ret (jsonify (PDict [ ("status", PStr "success");
                             ("match", match_entry Fixtures.top_match);
                             ("student", Fixtures.student_S1) ])),
       ([ EvSearchFacesByImage "attendance_collection" (list_byte_of_string "AAAA") 80 5;
          EvPrint "Found 1 match(es)" ]
        ++ [ store_call Fixtures.campus "GET" "/rest/v1/students?id=eq.S1&select=*"
               PNone PNone ]
        ++ evs3)%list)
    /\ attendance_writes Fixtures.campus
         ([ EvSearchFacesByImage "attendance_collection" (list_byte_of_string "AAAA") 80 5;
            EvPrint "Found 1 match(es)" ]
          ++ [ store_call Fixtures.campus "GET" "/rest/v1/students?id=eq.S1&select=*"
                 PNone PNone ]
          ++ evs3)%list =
         [ store_call Fixtures.campus "POST" "/rest/v1/attendance"
             (PDict [ ("student_id", PStr "S1"); ("confidence", PFloat 93.2%float) ])
             PNone ].
Proof.
  apply (api_recognize_face_records_attendance Fixtures.campus []
           [ ("image", PStr "data:image/png;base64,AAAA") ]
           "data:image/png;base64,AAAA" Fixtures.top_match [] _ Fixtures.student_S1 [] _);
    reflexivity.
Defined.

Lemma api_recognize_face_unknown_student_witness :
  api_recognize_face Fixtures.campus_with_stranger Fixtures.png_payload [] =
    (Ret (jsonify (search_success [ Fixtures.stranger_match ])),
     ([ EvSearchFacesByImage "attendance_collection" (list_byte_of_string "AAAA") 80 5;
        EvPrint "Found 1 match(es)" ]
      ++ [ store_call Fixtures.campus_with_stranger "GET"
             "/rest/v1/students?id=eq.S9&select=*" PNone PNone ])%list)
  /\ attendance_writes Fixtures.campus_with_stranger
       ([ EvSearchFacesByImage "attendance_collection" (list_byte_of_string "AAAA") 80 5;
          EvPrint "Found 1 match(es)" ]
        ++ [ store_call Fixtures.campus_with_stranger "GET"
               "/rest/v1/students?id=eq.S9&select=*" PNone PNone ])%list = [].
Proof.
  apply (api_recognize_face_unknown_student Fixtures.campus_with_stranger []
           [ ("image", PStr "data:image/png;base64,AAAA") ]
           "data:image/png;base64,AAAA" Fixtures.stranger_match [] _ (PList []) _);
    reflexivity.
Defined.

(** ** Registering a face *)

Lemma get_student_by_roll_number_returns W roll_number h :
  exists student prints,
    get_student_by_roll_number W roll_number h =
      (Ret student,
       store_call W "GET"
         ("/rest/v1/students?roll_number=eq." ++ format W roll_number ++ "&select=*")
         PNone PNone :: prints)
    /\ Forall (fun e => is_print e = true) prints.
Proof.
  unfold get_student_by_roll_number. apply supabase_request_returns. reflexivity.
Qed.

Lemma filter_prints (f : event -> bool) prints :
  (forall line, f (EvPrint line) = false) ->
  Forall (fun e => is_print e = true) prints ->
  filter f prints = [].
Proof.
  intros Hf. induction 1 as [| e prints He _ IH]; [reflexivity |].
  cbn [filter]. destruct e; try discriminate. rewrite Hf. exact IH.
Qed.

(** The run of [api_register_face] up to the student lookup, on a JSON
    object that has both fields. *)
Lemma api_register_face_not_found W h d image roll_number student evs :
  lookup "image" d = Some image ->
  lookup "roll_number" d = Some roll_number ->
  get_student_by_roll_number W roll_number h = (Ret student, evs) ->
  truthy student = false ->
  api_register_face W (PDict d) h =
    (Ret (jsonify_with (status_message "error" "Student not found") 404), evs).
Proof.
  intros Hi Hr Hlookup Hfalsy. unfold api_register_face.
  cbn [contains obind getitem].
  rewrite (lookup_has_key _ _ _ Hi), (lookup_has_key _ _ _ Hr), Hr.
  repeat (rewrite bind_lift_Ret; cbn [negb]; cbn iota).
  rewrite <- (app_nil_r evs).
  eapply bind_Ret_eq; [exact Hlookup |].
  rewrite Hfalsy. cbn [negb]. rewrite bind_lift_Ret. reflexivity.
Qed.

(** C3. A register-face request that carries an image and a roll number
    for which the student lookup returns nothing (an empty list, or [None]
    when the store fails) is answered 404, "Student not found", and does
    nothing beyond that lookup: no call of the face service, and so no
    [index_faces], is among its events. *)
Theorem api_register_face_unknown_roll_number W h d image roll_number student evs :
  lookup "image" d = Some image ->
  lookup "roll_number" d = Some roll_number ->
  get_student_by_roll_number W roll_number h = (Ret student, evs) ->
  truthy student = false ->
  api_register_face W (PDict d) h =
    (Ret (jsonify_with (status_message "error" "Student not found") 404), evs)
  /\ filter is_index_faces evs = []
  /\ filter is_face_service_call evs = [].
Proof.
  intros Hi Hr Hlookup Hfalsy.
  split; [exact (api_register_face_not_found W h d image roll_number student evs
                   Hi Hr Hlookup Hfalsy) |].
  destruct (get_student_by_roll_number_returns W roll_number h)
    as (st & prints & Hrun & Hprints).
  rewrite Hlookup in Hrun. injection Hrun as _ ->.
  split; cbn [filter store_call is_index_faces is_face_service_call];
    apply filter_prints; trivial.
Qed.

Lemma api_register_face_unknown_roll_number_witness :
  api_register_face Fixtures.campus
    (PDict [ ("image", PStr "data:image/png;base64,AAAA");
             ("roll_number", PStr "21CS999") ]) [] =
    (Ret (jsonify_with (status_message "error" "Student not found") 404),
     [ store_call Fixtures.campus "GET"
         "/rest/v1/students?roll_number=eq.21CS999&select=*" PNone PNone ])
  /\ filter is_index_faces
       [ store_call Fixtures.campus "GET"
           "/rest/v1/students?roll_number=eq.21CS999&select=*" PNone PNone ] = []
  /\ filter is_face_service_call
       [ store_call Fixtures.campus "GET"
           "/rest/v1/students?roll_number=eq.21CS999&select=*" PNone PNone ] = [].
Proof.
  apply (api_register_face_unknown_roll_number Fixtures.campus []
           [ ("image", PStr "data:image/png;base64,AAAA");
             ("roll_number", PStr "21CS999") ]
           (PStr "data:image/png;base64,AAAA") (PStr "21CS999") (PList []) _);
    reflexivity.
Defined.

(** ** Store failures, endpoint by endpoint *)

Lemma supabase_request_failed W method endpoint data params h :
  supported method = true ->
  400 <= status_code (store_answer W h method endpoint data params) ->
  fst (supabase_request W method endpoint data params h) = Ret PNone.
Proof.
  intros Hm Hs. rewrite (supabase_request_run _ _ _ _ _ _ Hm).
  replace (status_code (store_answer W h method endpoint data params) >=? 400)
    with true by (symmetry; apply Z.geb_le; lia).
  reflexivity.
Qed.

Lemma fst_bind_Ret {A B} (m : M A) (k : A -> M B) (h : history) a :
  fst (m h) = Ret a ->
  (forall h', fst (k a h') = fst (k a h)) ->
  fst (bind m k h) = fst (k a h).
Proof.
  intros Hm Hk. unfold bind. destruct (m h) as [o evs]. cbn [fst] in Hm. subst o.
  specialize (Hk (h ++ evs)%list). destruct (k a (h ++ evs)%list). exact Hk.
Qed.

(** C6, as the code has it.  When the store answers the request of an
    endpoint with a status of 400 or more: creating a student answers 500,
    "Failed to create student"; registering a face answers 404, "Student
    not found"; listing the students and listing the attendance answer 200
    with a null body. *)
Theorem store_failure_status_by_endpoint W h :
  (forall d name branch year roll_number email,
     lookup "name" d = Some name ->
     lookup "branch" d = Some branch ->
     lookup "year" d = Some year ->
     lookup "roll_number" d = Some roll_number ->
     lookup "email" d = Some email ->
     400 <= status_code
              (store_answer W h "POST" "/rest/v1/students"
                 (PDict [ ("name", name); ("branch", branch); ("year", year);
                          ("roll_number", roll_number); ("email", email) ]) PNone) ->
     fst (api_create_student W (PDict d) h) =
       Ret (jsonify_with (status_message "error" "Failed to create student") 500))
  /\
  (forall d image roll_number,
     lookup "image" d = Some image ->
     lookup "roll_number" d = Some roll_number ->
     400 <= status_code
              (store_answer W h "GET"
                 ("/rest/v1/students?roll_number=eq." ++ format W roll_number
                  ++ "&select=*") PNone PNone) ->
     fst (api_register_face W (PDict d) h) =
       Ret (jsonify_with (status_message "error" "Student not found") 404))
  /\
  (400 <= status_code
            (store_answer W h "GET" "/rest/v1/students?select=*" PNone PNone) ->
   fst (api_get_students W h) = Ret (jsonify PNone))
  /\
  (forall limit_arg,
     400 <= status_code
              (store_answer W h "GET"
                 ("/rest/v1/attendance_with_student?select=*&limit="
                  ++ format W (match limit_arg with
                               | Some s => PStr s
                               | None => PInt 50
                               end)) PNone PNone) ->
     fst (api_get_attendance W limit_arg h) = Ret (jsonify PNone)).
Proof.
  split; [| split; [| split]].
  - intros d name branch year roll_number email Hn Hb Hy Hr He Hs.
    rewrite (api_create_student_valid W h d _ _ _ _ _ Hn Hb Hy Hr He).
    rewrite (fst_bind_Ret _ _ _ PNone); [reflexivity | | reflexivity].
    rewrite create_student_run. apply supabase_request_failed; [reflexivity | exact Hs].
  - intros d image roll_number Hi Hr Hs.
    destruct (get_student_by_roll_number W roll_number h) as [o evs] eqn:Hrun.
    assert (Ho : o = Ret PNone).
    { change o with (fst (o, evs)). rewrite <- Hrun.
      apply supabase_request_failed; [reflexivity | exact Hs]. }
    subst o.
    rewrite (api_register_face_not_found W h d image roll_number PNone evs
               Hi Hr Hrun eq_refl).
    reflexivity.
  - intros Hs. unfold api_get_students.
    rewrite (fst_bind_Ret _ _ _ PNone); [reflexivity | | reflexivity].
    apply supabase_request_failed; [reflexivity | exact Hs].
  - intros limit_arg Hs. unfold api_get_attendance.
    rewrite (fst_bind_Ret _ _ _ PNone); [reflexivity | | reflexivity].
    apply supabase_request_failed; [reflexivity | exact Hs].
Qed.

Lemma store_failure_status_by_endpoint_witness :
  fst (api_create_student Fixtures.outage Fixtures.student_S1 []) =
    Ret (jsonify_with (status_message "error" "Failed to create student") 500)
  /\ fst (api_get_students Fixtures.outage []) = Ret (jsonify PNone).
Proof.
  split.
  - apply (proj1 (store_failure_status_by_endpoint Fixtures.outage [])
             _ (PStr "Asha") (PStr "CSE") (PInt 2) (PStr "21CS001")
             (PStr "asha@example.edu"));
      try reflexivity.
    vm_compute. discriminate.
  - apply (proj1 (proj2 (proj2 (store_failure_status_by_endpoint Fixtures.outage [])))).
    vm_compute. discriminate.
Defined.

(** C6 as stated fails on register-face: with a store that fails every
    request (status 500), the endpoint answers 404, not 500. *)
Lemma register_face_store_failure_is_404 :
  status_code
    (store_answer Fixtures.outage [] "GET"
       "/rest/v1/students?roll_number=eq.21CS001&select=*" PNone PNone) = 500
  /\ fst (api_register_face Fixtures.outage
            (PDict [ ("image", PStr "AAAA"); ("roll_number", PStr "21CS001") ]) []) =
       Ret (jsonify_with (status_message "error" "Student not found") 404)
  /\ status (jsonify_with (status_message "error" "Student not found") 404) <> 500.
Proof.
  split; [reflexivity |]. split; [reflexivity |]. discriminate.
Qed.

(** ** Attendance writes of a recognition *)

(** A payload that decodes was a string, stripped. *)
Lemma strip_data_uri_decodable W image image_base64 bytes :
  strip_data_uri image = Ret image_base64 ->
  decode_image W image_base64 = Ret bytes ->
  exists s, image = PStr s /\ image_base64 = PStr (stripped s).
Proof.
  intros Hstrip Hdec.
  destruct (decode_image_str _ _ _ Hdec) as (p & ->).
  destruct image; try discriminate.
  - rewrite strip_data_uri_str in Hstrip. injection Hstrip as <-. eauto.
  - unfold strip_data_uri in Hstrip. cbn [contains obind] in Hstrip.
    destruct (existsb _ l); discriminate.
  - unfold strip_data_uri in Hstrip. cbn [contains obind] in Hstrip.
    destruct (has_key "," d); discriminate.
Qed.

(** Without an image to search for, a recognition emits nothing. *)
Lemma api_recognize_face_no_search W data h :
  (forall d image image_base64,
     data = PDict d -> lookup "image" d = Some image ->
     strip_data_uri image <> Ret image_base64) ->
  snd (api_recognize_face W data h) = [].
Proof.
  intros Hno. unfold api_recognize_face.
  destruct data as [| b | z | f | s | l | d]; cbn [contains obind];
    try (rewrite bind_lift_Raise; reflexivity).
  - rewrite bind_lift_Ret. destruct (str_contains "image" s); reflexivity.
  - rewrite bind_lift_Ret. destruct (existsb _ l); reflexivity.
  - rewrite bind_lift_Ret. unfold has_key.
    destruct (lookup "image" d) as [image |] eqn:Hd; cbn [negb]; [| reflexivity].
    cbn [getitem]. rewrite Hd, bind_lift_Ret.
    destruct (strip_data_uri image) as [image_base64 | e] eqn:Hstrip.
    + exfalso. exact (Hno d image image_base64 eq_refl Hd Hstrip).
    + rewrite bind_lift_Raise. reflexivity.
Qed.

(** The attendance writes of a recognition: none, or one on the path
    through a successful search and a non-empty student lookup. *)
Lemma api_recognize_face_writes W data h :
  attendance_writes W (snd (api_recognize_face W data h)) = []
  \/ exists d s fm fms evs1 student evs2 n write,
       data = PDict d
       /\ lookup "image" d = Some (PStr s)
       /\ search_faces_from_base64 W (collection_id W) (PStr (stripped s)) 80 h =
            (Ret (search_success (fm :: fms)), evs1)
       /\ get_student_by_id W (PStr (external_id_of fm)) (h ++ evs1)%list =
            (Ret student, evs2)
       /\ truthy student = true
       /\ len student = Ret n
       /\ 0 < n
       /\ attendance_writes W (snd (api_recognize_face W data h)) = [ write ].
Proof.
  destruct data as [| b | z | f | s0 | l | d];
    try (left; rewrite api_recognize_face_no_search; [reflexivity | discriminate]).
  destruct (lookup "image" d) as [image |] eqn:Hd;
    [| left; rewrite api_recognize_face_no_search; [reflexivity |];
       intros d' image' p [= <-]; congruence].
  destruct (strip_data_uri image) as [image_base64 | e] eqn:Hstrip;
    [| left; rewrite api_recognize_face_no_search; [reflexivity |];
       intros d' image' p [= <-]; congruence].
  rewrite (api_recognize_face_image W h d _ _ Hd Hstrip).
  destruct (search_faces_from_base64_cases W (collection_id W) image_base64 80 h)
    as (r & evs1 & Hsearch & Hquiet & Hcases).
  pose proof (attendance_writes_quiet W _ Hquiet) as Hq1.
  destruct Hcases as [(fm & fms & bytes & -> & Hdec) | [(msg & ->) | (e & ->)]].
  - destruct (strip_data_uri_decodable W _ _ _ Hstrip Hdec) as (s & -> & ->).
    destruct (get_student_by_id_writes_nothing W (PStr (external_id_of fm))
                (h ++ evs1)%list) as (student & evs2 & Hstudent & Hq2).
    destruct (truthy student) eqn:Htruthy.
    + destruct (len student) as [n | e] eqn:Hlen.
      * destruct (n >? 0) eqn:Hn.
        -- destruct (getindex student 0) as [student0 | e] eqn:Hfirst.
           ++ destruct (record_attendance_writes_once W (PStr (external_id_of fm))
                          (PFloat (match_similarity fm)) ((h ++ evs1) ++ evs2)%list)
                as (v & evs3 & Hrec & Hwrites).
              right. exists d, s, fm, fms, evs1, student, evs2, n. eexists.
              repeat (split; [first [reflexivity | assumption | lia] |]).
              erewrite bind_Ret_eq; [| exact Hsearch |]; cycle 1.
              { pure_steps. eapply bind_Ret_eq; [exact Hstudent |].
                rewrite Htruthy, Hlen. cbn [obind]. rewrite Hn. pure_steps.
                rewrite Hfirst. pure_steps.
                eapply bind_Ret_eq; [exact Hrec | reflexivity]. }
              cbn [snd]. rewrite !attendance_writes_app, Hq1, Hq2, Hwrites.
              reflexivity.
           ++ left.
              erewrite bind_Ret_eq; [| exact Hsearch |]; cycle 1.
              { pure_steps. eapply bind_Ret_eq; [exact Hstudent |].
                rewrite Htruthy, Hlen. cbn [obind]. rewrite Hn. pure_steps.
                rewrite Hfirst. pure_steps. reflexivity. }
              cbn [snd]. rewrite !attendance_writes_app, Hq1, Hq2. reflexivity.
        -- left.
           erewrite bind_Ret_eq; [| exact Hsearch |]; cycle 1.
           { pure_steps. eapply bind_Ret_eq; [exact Hstudent |].
             rewrite Htruthy, Hlen. cbn [obind]. rewrite Hn. pure_steps.
             reflexivity. }
           cbn [snd]. rewrite !attendance_writes_app, Hq1, Hq2. reflexivity.
      * left.
        erewrite bind_Ret_eq; [| exact Hsearch |]; cycle 1.
        { pure_steps. eapply bind_Ret_eq; [exact Hstudent |].
          rewrite Htruthy, Hlen. cbn [obind]. pure_steps. reflexivity. }
        cbn [snd]. rewrite !attendance_writes_app, Hq1, Hq2. reflexivity.
    + left.
      erewrite bind_Ret_eq; [| exact Hsearch |]; cycle 1.
      { pure_steps. eapply bind_Ret_eq; [exact Hstudent |].
        rewrite Htruthy. pure_steps. reflexivity. }
      cbn [snd]. rewrite !attendance_writes_app, Hq1, Hq2. reflexivity.
  - left.
    erewrite bind_Ret_eq; [| exact Hsearch |]; cycle 1.
    { pure_steps. reflexivity. }
    cbn [snd]. rewrite attendance_writes_app, Hq1. reflexivity.
  - left. rewrite (bind_Raise _ _ _ _ _ Hsearch). exact Hq1.
Qed.

(** C10. A recognize-face request writes attendance at most once, and
    when it writes, the request was a JSON object with a string image, the
    face search on the stripped image returned success with a non-empty
    list of matches, and the lookup of the top match's external identifier
    returned a truthy value of positive length.  On every other path
    (no image, failed search, no match, unknown student) there is no
    attendance write among the events. *)
Theorem api_recognize_face_writes_attendance_at_most_once W data h :
  (List.length (attendance_writes W (snd (api_recognize_face W data h))) <= 1)%nat
  /\
  (attendance_writes W (snd (api_recognize_face W data h)) <> [] ->
   exists d s fm fms evs1 student evs2 n,
     data = PDict d
     /\ lookup "image" d = Some (PStr s)
     /\ search_faces_from_base64 W (collection_id W) (PStr (stripped s)) 80 h =
          (Ret (search_success (fm :: fms)), evs1)
     /\ get_student_by_id W (PStr (external_id_of fm)) (h ++ evs1)%list =
          (Ret student, evs2)
     /\ truthy student = true
     /\ len student = Ret n
     /\ 0 < n)
  /\
  (forall d, data = PDict d -> lookup "image" d = None ->
     api_recognize_face W data h =
       (Ret (jsonify_with (status_message "error" "Missing image") 400), []))
  /\
  (forall d s msg evs1,
     data = PDict d -> lookup "image" d = Some (PStr s) ->
     search_faces_from_base64 W (collection_id W) (PStr (stripped s)) 80 h =
       (Ret (status_message "error" msg), evs1) ->
     api_recognize_face W data h = (Ret (jsonify (status_message "error" msg)), evs1)
     /\ attendance_writes W evs1 = []).
Proof.
  split; [| split; [| split]].
  - destruct (api_recognize_face_writes W data h)
      as [-> | (d & s & fm & fms & evs1 & student & evs2 & n & write & H)].
    + cbn. lia.
    + destruct H as (_ & _ & _ & _ & _ & _ & _ & ->). cbn. lia.
  - intros Hwrites.
    destruct (api_recognize_face_writes W data h)
      as [Hnone | (d & s & fm & fms & evs1 & student & evs2 & n & write & H)].
    + contradiction.
    + exists d, s, fm, fms, evs1, student, evs2, n. tauto.
  - intros d -> Hd. unfold api_recognize_face. cbn [contains obind].
    unfold has_key. rewrite Hd. cbn [negb]. rewrite bind_lift_Ret. reflexivity.
  - intros d s msg evs1 -> Hd Hsearch.
    rewrite (api_recognize_face_image W h d _ _ Hd (strip_data_uri_str s)).
    split.
    + rewrite <- (app_nil_r evs1).
      eapply bind_Ret_eq; [exact Hsearch |]. pure_steps. reflexivity.
    + pose proof (search_faces_from_base64_quiet W (collection_id W)
                    (PStr (stripped s)) 80 h) as Hq.
      rewrite Hsearch in Hq. exact Hq.
Qed.

Lemma api_recognize_face_writes_attendance_at_most_once_witness :
  exists d s fm fms evs1 student evs2 n,
    Fixtures.png_payload = PDict d
    /\ lookup "image" d = Some (PStr s)
    /\ search_faces_from_base64 Fixtures.campus (collection_id Fixtures.campus)
         (PStr (stripped s)) 80 [] =
         (Ret (search_success (fm :: fms)), evs1)
    /\ get_student_by_id Fixtures.campus (PStr (external_id_of fm)) ([] ++ evs1)%list =
         (Ret student, evs2)
    /\ truthy student = true
    /\ len student = Ret n
    /\ 0 < n.
Proof.
  apply (proj1 (proj2 (api_recognize_face_writes_attendance_at_most_once
                         Fixtures.campus Fixtures.png_payload []))).
  vm_compute. discriminate.
Defined.

(** * Further properties *)

(** ** The clients, case by case *)

(** X1. A method other than GET, POST, PUT and DELETE makes
    [supabase_request] raise [UnboundLocalError] before anything is sent
    or printed. *)
Theorem supabase_request_unknown_method W h method endpoint data params :
  supported method = false ->
  supabase_request W method endpoint data params h = (Raise UnboundLocalError, [])
  /\ filter is_http (snd (supabase_request W method endpoint data params h)) = [].
Proof.
  intros Hm. rewrite (supabase_request_unsupported _ _ _ _ _ _ Hm).
  split; reflexivity.
Qed.

Lemma supabase_request_unknown_method_witness :
  supabase_request Fixtures.campus "PATCH" "/rest/v1/students" PNone PNone [] =
    (Raise UnboundLocalError, [])
  /\ filter is_http
       (snd (supabase_request Fixtures.campus "PATCH" "/rest/v1/students" PNone PNone []))
     = [].
Proof.
  apply (supabase_request_unknown_method Fixtures.campus [] "PATCH"
           "/rest/v1/students" PNone PNone eq_refl).
Defined.

Lemma existsb_eqb_In (x : string) (l : list string) :
  existsb (String.eqb x) l = false -> ~ In x l.
Proof.
  intros Hex Hin. rewrite (In_existsb_eqb _ _ Hin) in Hex. discriminate.
Qed.

(** X2. [create_collection] issues at most one creation request, for
    the collection it was given, and issues it only after a listing that
    returned without that collection. *)
Theorem create_collection_creates_only_when_absent W h collection_id :
  filter is_create_collection (snd (create_collection W collection_id h)) = []
  \/ exists ids,
       rekognition_list_collections W h = inr ids
       /\ ~ In collection_id ids
       /\ filter is_create_collection (snd (create_collection W collection_id h)) =
            [ EvCreateCollection collection_id ].
Proof.
  unfold create_collection, except_ClientError, bind, service.
  destruct (rekognition_list_collections W h) as [msg | ids] eqn:Hlist.
  - left. reflexivity.
  - destruct (existsb (String.eqb collection_id) ids) eqn:Hex.
    + left. reflexivity.
    + pose proof (existsb_eqb_In _ _ Hex) as Hout.
      destruct (rekognition_create_collection W _ collection_id) as [msg | arn];
        right; exists ids; auto.
Qed.

(** X3. When the listing returns without the collection,
    [create_collection] asks the service to create it, right after the
    listing: on success it reports the creation, printing the ARN; when
    the creation raises a [ClientError] it returns an error result with
    the message of the exception.  When the listing itself raises, nothing
    is created and the error result carries the listing's message. *)
Theorem create_collection_absent_or_failing W h collection_id :
  (forall ids,
     rekognition_list_collections W h = inr ids ->
     ~ In collection_id ids ->
     (forall arn,
        rekognition_create_collection W (h ++ [ EvListCollections ])%list collection_id
          = inr arn ->
        create_collection W collection_id h =
          (Ret (status_message "success" ("Collection '" ++ collection_id ++ "' created.")),
           [ EvListCollections;
             EvCreateCollection collection_id;
             EvPrint ("Collection '" ++ collection_id ++ "' created. ARN: " ++ arn) ]))
     /\
     (forall msg,
        rekognition_create_collection W (h ++ [ EvListCollections ])%list collection_id
          = inl msg ->
        create_collection W collection_id h =
          (Ret (status_message "error" msg),
           [ EvListCollections;
             EvCreateCollection collection_id;
             EvPrint ("Error creating collection: " ++ msg) ])))
  /\
  (forall msg,
     rekognition_list_collections W h = inl msg ->
     create_collection W collection_id h =
       (Ret (status_message "error" msg),
        [ EvListCollections; EvPrint ("Error creating collection: " ++ msg) ])).
Proof.
  split.
  - intros ids Hlist Hout.
    assert (Hex : existsb (String.eqb collection_id) ids = false).
    { destruct (existsb (String.eqb collection_id) ids) eqn:Hex; [| reflexivity].
      apply existsb_exists in Hex as (x & Hin & Heq).
      apply String.eqb_eq in Heq. subst x. contradiction. }
    split.
    + intros arn Hcreate.
      unfold create_collection, except_ClientError, bind, service.
      rewrite Hlist, Hex, Hcreate. reflexivity.
    + intros msg Hcreate.
      unfold create_collection, except_ClientError, bind, service.
      rewrite Hlist, Hex, Hcreate. reflexivity.
  - intros msg Hlist.
    unfold create_collection, except_ClientError, bind, service.
    rewrite Hlist. reflexivity.
Qed.

Lemma create_collection_absent_or_failing_witness :
  create_collection Fixtures.campus "attendance_collection" [] =
    (Ret (status_message "success" "Collection 'attendance_collection' created."),
     [ EvListCollections;
       EvCreateCollection "attendance_collection";
       EvPrint "Collection 'attendance_collection' created. ARN: aws:rekognition:attendance_collection" ])
  /\
  create_collection (Outages.raising "AccessDeniedException") "attendance_collection" [] =
    (Ret (status_message "error" "AccessDeniedException"),
     [ EvListCollections; EvPrint "Error creating collection: AccessDeniedException" ]).
Proof.
  split.
  - apply (proj1 (proj1 (create_collection_absent_or_failing Fixtures.campus []
                           "attendance_collection") [] eq_refl (fun H => H))
             "aws:rekognition:attendance_collection" eq_refl).
  - apply (proj2 (create_collection_absent_or_failing
                    (Outages.raising "AccessDeniedException") []
                    "attendance_collection") "AccessDeniedException" eq_refl).
Defined.

(** X4. [delete_collection] does not look whether the collection
    exists: its only call is the deletion.  When that call returns, the
    result is a success after one print; when it raises a [ClientError],
    the result is an error result with the message of the exception, after
    one print. *)
Theorem delete_collection_outcome W h collection_id :
  (rekognition_delete_collection W h collection_id = inr tt ->
   delete_collection W collection_id h =
     (Ret (status_message "success" ("Collection '" ++ collection_id ++ "' deleted.")),
      [ EvDeleteCollection collection_id;
        EvPrint ("Collection '" ++ collection_id ++ "' deleted.") ]))
  /\
  (forall msg,
     rekognition_delete_collection W h collection_id = inl msg ->
     delete_collection W collection_id h =
       (Ret (status_message "error" msg),
        [ EvDeleteCollection collection_id;
          EvPrint ("Error deleting collection: " ++ msg) ])).
Proof.
  unfold delete_collection, except_ClientError, bind, service.
  split.
  - intros ->. reflexivity.
  - intros msg ->. reflexivity.
Qed.

Lemma delete_collection_outcome_witness :
  delete_collection (Outages.raising "ResourceNotFoundException") "faces" [] =
    (Ret (status_message "error" "ResourceNotFoundException"),
     [ EvDeleteCollection "faces";
       EvPrint "Error deleting collection: ResourceNotFoundException" ]).
Proof.
  apply (proj2 (delete_collection_outcome
                  (Outages.raising "ResourceNotFoundException") [] "faces")
           "ResourceNotFoundException" eq_refl).
Defined.

(** X5. What an enrollment of a decodable image returns, by the answer
    of the service to its one [index_faces] call: the face ids in the
    order of the service with their number as count, after one print for
    the total and one per face; an error result, not an exception, when
    the service indexed no face; an error result with the message of the
    exception when the service raised a [ClientError]. *)
Theorem index_faces_from_base64_outcomes W h collection_id image_base64 external_id bytes :
  decode_image W image_base64 = Ret bytes ->
  (forall face_id rest,
     rekognition_index_faces W h collection_id bytes
       (if truthy external_id then external_id else PStr "unknown") [ "ALL" ]
       = inr (face_id :: rest) ->
     index_faces_from_base64 W collection_id image_base64 external_id h =
       (Ret (PDict [ ("status", PStr "success");
                     ("face_ids", PList (map PStr (face_id :: rest)));
                     ("count", PInt (Z.of_nat (List.length (face_id :: rest)))) ]),
        EvIndexFaces collection_id bytes
          (if truthy external_id then external_id else PStr "unknown") [ "ALL" ]
        :: EvPrint ("Added " ++ str_of_Z (Z.of_nat (List.length (face_id :: rest)))
                    ++ " face(s) to collection '" ++ collection_id ++ "'")
        :: map (fun id => EvPrint ("Face ID: " ++ id)) (face_id :: rest)))
  /\
  (rekognition_index_faces W h collection_id bytes
     (if truthy external_id then external_id else PStr "unknown") [ "ALL" ] = inr [] ->
   index_faces_from_base64 W collection_id image_base64 external_id h =
     (Ret (status_message "error" "No faces detected in the image."),
      [ EvIndexFaces collection_id bytes
          (if truthy external_id then external_id else PStr "unknown") [ "ALL" ];
        EvPrint "No faces detected in the image." ]))
  /\
  (forall msg,
     rekognition_index_faces W h collection_id bytes
       (if truthy external_id then external_id else PStr "unknown") [ "ALL" ] = inl msg ->
     index_faces_from_base64 W collection_id image_base64 external_id h =
       (Ret (status_message "error" msg),
        [ EvIndexFaces collection_id bytes
            (if truthy external_id then external_id else PStr "unknown") [ "ALL" ];
          EvPrint ("Error indexing face: " ++ msg) ])).
Proof.
  intros Hdec.
  split; [| split].
  - intros face_id rest Hsvc.
    unfold index_faces_from_base64, except_ClientError.
    rewrite Hdec, bind_lift_Ret. unfold bind at 1. unfold service at 1.
    rewrite Hsvc. unfold bind, print. rewrite print_face_ids_run.
    cbn [ret app]. rewrite app_nil_r. reflexivity.
  - intros Hsvc.
    unfold index_faces_from_base64, except_ClientError.
    rewrite Hdec, bind_lift_Ret. unfold bind at 1. unfold service at 1.
    rewrite Hsvc. reflexivity.
  - intros msg Hsvc.
    unfold index_faces_from_base64, except_ClientError.
    rewrite Hdec, bind_lift_Ret. unfold bind at 1. unfold service at 1.
    rewrite Hsvc. reflexivity.
Qed.

Lemma index_faces_from_base64_outcomes_witness :
  index_faces_from_base64 Outages.blind "faces" (PStr "AAAA") (PStr "S1") [] =
    (Ret (status_message "error" "No faces detected in the image."),
     [ EvIndexFaces "faces" (list_byte_of_string "AAAA") (PStr "S1") [ "ALL" ];
       EvPrint "No faces detected in the image." ])
  /\
  index_faces_from_base64 Fixtures.campus "faces" (PStr "AAAA") (PStr "S1") [] =
    (Ret (PDict [ ("status", PStr "success");
                  ("face_ids", PList [ PStr "face-1" ]);
                  ("count", PInt 1) ]),
     [ EvIndexFaces "faces" (list_byte_of_string "AAAA") (PStr "S1") [ "ALL" ];
       EvPrint "Added 1 face(s) to collection 'faces'";
       EvPrint "Face ID: face-1" ]).
Proof.
  split.
  - apply (proj1 (proj2 (index_faces_from_base64_outcomes Outages.blind [] "faces"
                           (PStr "AAAA") (PStr "S1") (list_byte_of_string "AAAA")
                           eq_refl))).
    reflexivity.
  - apply (proj1 (index_faces_from_base64_outcomes Fixtures.campus [] "faces"
                    (PStr "AAAA") (PStr "S1") (list_byte_of_string "AAAA") eq_refl)
             "face-1" []).
    reflexivity.
Defined.

(** X6. A truthy external identifier is the one the enrollment hands to
    the face service: whenever the service answers the [index_faces] call
    made with that identifier, with faces, with none or with a
    [ClientError], the enrollment returns after exactly that call, which
    carries the identifier given and not the sentinel. *)
Theorem index_faces_truthy_external_id_is_kept W h collection_id image_base64
    external_id bytes :
  truthy external_id = true ->
  decode_image W image_base64 = Ret bytes ->
  (forall face_ids,
     rekognition_index_faces W h collection_id bytes external_id [ "ALL" ]
       = inr face_ids ->
     exists result prints,
       index_faces_from_base64 W collection_id image_base64 external_id h =
         (Ret result, EvIndexFaces collection_id bytes external_id [ "ALL" ] :: prints)
       /\ Forall (fun e => is_print e = true) prints)
  /\
  (forall msg,
     rekognition_index_faces W h collection_id bytes external_id [ "ALL" ] = inl msg ->
     index_faces_from_base64 W collection_id image_base64 external_id h =
       (Ret (status_message "error" msg),
        [ EvIndexFaces collection_id bytes external_id [ "ALL" ];
          EvPrint ("Error indexing face: " ++ msg) ])).
Proof.
  intros Htruthy Hdec. split.
  - intros face_ids _.
    destruct (index_faces_from_base64_run W collection_id image_base64 external_id h
                bytes Hdec) as (result & prints & Hrun & Hprints).
    rewrite Htruthy in Hrun. eauto.
  - intros msg Hsvc.
    unfold index_faces_from_base64, except_ClientError.
    rewrite Hdec, bind_lift_Ret, Htruthy. unfold bind at 1. unfold service at 1.
    rewrite Hsvc. reflexivity.
Qed.

Lemma index_faces_truthy_external_id_is_kept_witness :
  exists result prints,
    index_faces_from_base64 Fixtures.campus "faces" (PStr "AAAA") (PStr "unknown-2") [] =
      (Ret result,
       EvIndexFaces "faces" (list_byte_of_string "AAAA") (PStr "unknown-2") [ "ALL" ]
       :: prints)
    /\ Forall (fun e => is_print e = true) prints.
Proof.
  apply (proj1 (index_faces_truthy_external_id_is_kept Fixtures.campus [] "faces"
                  (PStr "AAAA") (PStr "unknown-2") (list_byte_of_string "AAAA")
                  eq_refl eq_refl) [ "face-1" ]).
  reflexivity.
Defined.

Lemma search_faces_from_base64_undecoded W collection_id image_base64 threshold h e :
  decode_image W image_base64 = Raise e ->
  search_faces_from_base64 W collection_id image_base64 threshold h = (Raise e, []).
Proof.
  intros Hdec. unfold search_faces_from_base64, except_ClientError.
  rewrite Hdec, bind_lift_Raise.
  destruct (decode_image_raises _ _ _ Hdec) as [-> | ->]; reflexivity.
Qed.

(** X7. An image that does not decode never reaches the face service:
    enrollment and search both raise, with no event, a [TypeError] when
    the image is not a string and a [ValueError] when [b64decode] rejects
    the string.  The handlers of the two functions, which catch
    [ClientError] only, do not turn these into error results. *)
Theorem undecodable_image_escapes_the_handlers W h collection_id :
  (forall image_base64 external_id,
     (forall s, image_base64 <> PStr s) ->
     index_faces_from_base64 W collection_id image_base64 external_id h =
       (Raise TypeError, []))
  /\ (forall s external_id,
        b64decode W s = None ->
        index_faces_from_base64 W collection_id (PStr s) external_id h =
          (Raise ValueError, []))
  /\ (forall image_base64 threshold,
        (forall s, image_base64 <> PStr s) ->
        search_faces_from_base64 W collection_id image_base64 threshold h =
          (Raise TypeError, []))
  /\ (forall s threshold,
        b64decode W s = None ->
        search_faces_from_base64 W collection_id (PStr s) threshold h =
          (Raise ValueError, [])).
Proof.
  assert (Hnot : forall image_base64,
             (forall s, image_base64 <> PStr s) ->
             decode_image W image_base64 = Raise TypeError).
  { intros [] Hns; try reflexivity. exfalso. exact (Hns s eq_refl). }
  assert (Hbad : forall s, b64decode W s = None ->
                           decode_image W (PStr s) = Raise ValueError).
  { intros s Hs. cbn. rewrite Hs. reflexivity. }
  repeat split.
  - intros image_base64 external_id Hns.
    apply index_faces_from_base64_undecoded, Hnot, Hns.
  - intros s external_id Hs. apply index_faces_from_base64_undecoded, Hbad, Hs.
  - intros image_base64 threshold Hns.
    apply search_faces_from_base64_undecoded, Hnot, Hns.
  - intros s threshold Hs. apply search_faces_from_base64_undecoded, Hbad, Hs.
Qed.

Lemma undecodable_image_escapes_the_handlers_witness :
  index_faces_from_base64 Fixtures.campus "faces" PNone (PStr "S1") [] =
    (Raise TypeError, [])
  /\ search_faces_from_base64 Outages.undecoding "faces" (PStr "%%%") 80 [] =
       (Raise ValueError, []).
Proof.
  split.
  - apply (proj1 (undecodable_image_escapes_the_handlers Fixtures.campus [] "faces")
             PNone (PStr "S1")).
    discriminate.
  - apply (proj2 (proj2 (proj2 (undecodable_image_escapes_the_handlers
                                  Outages.undecoding [] "faces")))
             "%%%" 80 eq_refl).
Defined.

(** X8. What a search on a decodable image returns, by the answer of the
    service to its one [search_faces_by_image] call, which always asks for
    at most 5 faces at the threshold given: the matches in the order of
    the service, an absent external identifier reported as "unknown"; an
    error result when no face matches; and for a [ClientError], the fixed
    message about no face in the input image when the text of the
    exception contains both "InvalidParameterException" and "No face
    detected", the text of the exception otherwise.  It never raises. *)
Theorem search_faces_from_base64_outcomes W h collection_id image_base64 threshold bytes :
  decode_image W image_base64 = Ret bytes ->
  (forall fm fms,
     rekognition_search_faces_by_image W h collection_id bytes threshold 5
       = inr (fm :: fms) ->
     search_faces_from_base64 W collection_id image_base64 threshold h =
       (Ret (PDict [ ("status", PStr "success");
                     ("matches",
                      PList (map (fun m =>
                                    PDict [ ("face_id", PStr (match_face_id m));
                                            ("similarity", PFloat (match_similarity m));
                                            ("external_id", PStr (external_id_of m)) ])
                               (fm :: fms))) ]),
        [ EvSearchFacesByImage collection_id bytes threshold 5;
          EvPrint ("Found " ++ str_of_Z (Z.of_nat (List.length (fm :: fms)))
                   ++ " match(es)") ]))
  /\
  (rekognition_search_faces_by_image W h collection_id bytes threshold 5 = inr [] ->
   search_faces_from_base64 W collection_id image_base64 threshold h =
     (Ret (status_message "error" "No matching faces found in the collection."),
      [ EvSearchFacesByImage collection_id bytes threshold 5;
        EvPrint "No matching faces found in the collection." ]))
  /\
  (forall msg,
     rekognition_search_faces_by_image W h collection_id bytes threshold 5 = inl msg ->
     str_contains "InvalidParameterException" msg = true ->
     str_contains "No face detected" msg = true ->
     search_faces_from_base64 W collection_id image_base64 threshold h =
       (Ret (status_message "error" "No faces detected in the input image."),
        [ EvSearchFacesByImage collection_id bytes threshold 5;
          EvPrint "No faces detected in the input image." ]))
  /\
  (forall msg,
     rekognition_search_faces_by_image W h collection_id bytes threshold 5 = inl msg ->
     str_contains "InvalidParameterException" msg = false
     \/ str_contains "No face detected" msg = false ->
     search_faces_from_base64 W collection_id image_base64 threshold h =
       (Ret (status_message "error" msg),
        [ EvSearchFacesByImage collection_id bytes threshold 5;
          EvPrint ("Error searching for faces: " ++ msg) ])).
Proof.
  intros Hdec.
  assert (Hrun : search_faces_from_base64 W collection_id image_base64 threshold h =
                 except_ClientError
                   (face_matches <- service
                       (EvSearchFacesByImage collection_id bytes threshold 5)
                       (fun h => rekognition_search_faces_by_image W h collection_id
                                   bytes threshold 5) ;;
                    match face_matches with
                    | _ :: _ =>
                        print ("Found " ++ str_of_Z (Z.of_nat (List.length face_matches))
                               ++ " match(es)") ;;
                        ret (PDict [ ("status", PStr "success");
                                     ("matches", PList (map match_entry face_matches)) ])
                    | [] =>
                        print "No matching faces found in the collection." ;;
                        ret (status_message "error"
                               "No matching faces found in the collection.")
                    end)
                   (fun e =>
                      if str_contains "InvalidParameterException" e
                         && str_contains "No face detected" e
                      then
                        print "No faces detected in the input image." ;;
                        ret (status_message "error"
                               "No faces detected in the input image.")
                      else
                        print ("Error searching for faces: " ++ e) ;;
                        ret (status_message "error" e)) h).
  { unfold search_faces_from_base64, except_ClientError.
    rewrite Hdec, bind_lift_Ret. reflexivity. }
  rewrite Hrun. unfold except_ClientError, bind, service.
  split; [| split; [| split]].
  - intros fm fms ->. reflexivity.
  - intros ->. reflexivity.
  - intros msg -> -> ->. reflexivity.
  - intros msg -> [-> | ->]; [| rewrite andb_false_r]; reflexivity.
Qed.

Lemma search_faces_from_base64_outcomes_witness :
  search_faces_from_base64
    (Outages.raising "InvalidParameterException: No face detected in the image")
    "faces" (PStr "AAAA") 80 [] =
    (Ret (status_message "error" "No faces detected in the input image."),
     [ EvSearchFacesByImage "faces" (list_byte_of_string "AAAA") 80 5;
       EvPrint "No faces detected in the input image." ])
  /\
  search_faces_from_base64 (Outages.raising "InvalidParameterException: bad image")
    "faces" (PStr "AAAA") 80 [] =
    (Ret (status_message "error" "InvalidParameterException: bad image"),
     [ EvSearchFacesByImage "faces" (list_byte_of_string "AAAA") 80 5;
       EvPrint "Error searching for faces: InvalidParameterException: bad image" ]).
Proof.
  split.
  - apply (proj1 (proj2 (proj2 (search_faces_from_base64_outcomes
             (Outages.raising "InvalidParameterException: No face detected in the image")
             [] "faces" (PStr "AAAA") 80 (list_byte_of_string "AAAA") eq_refl)))
             "InvalidParameterException: No face detected in the image");
      reflexivity.
  - apply (proj2 (proj2 (proj2 (search_faces_from_base64_outcomes
             (Outages.raising "InvalidParameterException: bad image")
             [] "faces" (PStr "AAAA") 80 (list_byte_of_string "AAAA") eq_refl)))
             "InvalidParameterException: bad image").
    + reflexivity.
    + right. reflexivity.
Defined.

(** X9. [delete_faces] makes one deletion call with the ids as given.
    When the answer has no [DeletedFaces] the deleted list defaults to the
    empty list and the print counts 0; when it has a list, that list is
    returned and its length printed; a [ClientError] becomes an error
    result with its message. *)
Theorem delete_faces_outcomes W h collection_id face_ids :
  (rekognition_delete_faces W h collection_id face_ids = inr None ->
   delete_faces W collection_id face_ids h =
     (Ret (PDict [ ("status", PStr "success"); ("deleted", PList []) ]),
      [ EvDeleteFaces collection_id face_ids; EvPrint "Deleted 0 face(s)." ]))
  /\
  (forall deleted,
     rekognition_delete_faces W h collection_id face_ids = inr (Some (PList deleted)) ->
     delete_faces W collection_id face_ids h =
       (Ret (PDict [ ("status", PStr "success"); ("deleted", PList deleted) ]),
        [ EvDeleteFaces collection_id face_ids;
          EvPrint ("Deleted " ++ str_of_Z (Z.of_nat (List.length deleted))
                   ++ " face(s).") ]))
  /\
  (forall msg,
     rekognition_delete_faces W h collection_id face_ids = inl msg ->
     delete_faces W collection_id face_ids h =
       (Ret (status_message "error" msg),
        [ EvDeleteFaces collection_id face_ids;
          EvPrint ("Error deleting faces: " ++ msg) ])).
Proof.
  unfold delete_faces, except_ClientError.
  split; [| split].
  - intros Hsvc. unfold bind at 1. unfold service at 1. rewrite Hsvc.
    cbn [len]. rewrite bind_lift_Ret. reflexivity.
  - intros deleted Hsvc. unfold bind at 1. unfold service at 1. rewrite Hsvc.
    cbn [len]. rewrite bind_lift_Ret. reflexivity.
  - intros msg Hsvc. unfold bind at 1. unfold service at 1. rewrite Hsvc.
    reflexivity.
Qed.

Lemma delete_faces_outcomes_witness :
  delete_faces Fixtures.campus "faces" (PList [ PStr "face-1" ]) [] =
    (Ret (PDict [ ("status", PStr "success"); ("deleted", PList []) ]),
     [ EvDeleteFaces "faces" (PList [ PStr "face-1" ]); EvPrint "Deleted 0 face(s)." ]).
Proof.
  apply (proj1 (delete_faces_outcomes Fixtures.campus [] "faces"
                  (PList [ PStr "face-1" ]))).
  reflexivity.
Defined.

(** ** Counting the calls of a run *)

Lemma snd_bind {A B} (m : M A) (k : A -> M B) (h : history) :
  snd (bind m k h) =
    (snd (m h) ++ match fst (m h) with
                  | Ret a => snd (k a (h ++ snd (m h))%list)
                  | Raise _ => []
                  end)%list.
Proof.
  unfold bind. destruct (m h) as [[a | e] evs]; cbn [fst snd].
  - destruct (k a (h ++ evs)%list). reflexivity.
  - rewrite app_nil_r. reflexivity.
Qed.

Section Budget.

Variable kind : event -> bool.
Hypothesis kind_print : forall line, kind (EvPrint line) = false.

Lemma emits_weaken {A} (m : M A) n n' :
  (n <= n')%nat -> emits_at_most kind n m -> emits_at_most kind n' m.
Proof. intros Hle Hm h. specialize (Hm h). lia. Qed.

Lemma emits_ret {A} (a : A) n : emits_at_most kind n (ret a).
Proof. intros h. cbn. lia. Qed.

Lemma emits_bind {A B} (m : M A) (k : A -> M B) a b :
  emits_at_most kind a m ->
  (forall x, emits_at_most kind b (k x)) ->
  emits_at_most kind (a + b) (bind m k).
Proof.
  intros Hm Hk h. rewrite snd_bind, filter_app, length_app.
  specialize (Hm h). destruct (fst (m h)) as [x | e].
  - specialize (Hk x (h ++ snd (m h))%list). lia.
  - cbn. lia.
Qed.

Lemma emits_bind_0 {A B} (m : M A) (k : A -> M B) n :
  emits_at_most kind 0 m ->
  (forall x, emits_at_most kind n (k x)) ->
  emits_at_most kind n (bind m k).
Proof. intros Hm Hk. exact (emits_bind m k 0 n Hm Hk). Qed.

Lemma emits_bind_S {A B} (m : M A) (k : A -> M B) n :
  emits_at_most kind 1 m ->
  (forall x, emits_at_most kind n (k x)) ->
  emits_at_most kind (S n) (bind m k).
Proof. intros Hm Hk. exact (emits_bind m k 1 n Hm Hk). Qed.

Lemma emits_bind_2 {A B} (m : M A) (k : A -> M B) n :
  emits_at_most kind 2 m ->
  (forall x, emits_at_most kind n (k x)) ->
  emits_at_most kind (S (S n)) (bind m k).
Proof. intros Hm Hk. exact (emits_bind m k 2 n Hm Hk). Qed.

Lemma emits_lift {A} (o : outcome A) : emits_at_most kind 0 (lift o).
Proof. intros h. cbn. lia. Qed.

Lemma emits_print line : emits_at_most kind 0 (print line).
Proof. intros h. cbn. rewrite kind_print. cbn. lia. Qed.

Lemma emits_except {A} (m : M A) (handler : string -> M A) n :
  emits_at_most kind n m ->
  (forall msg, emits_at_most kind 0 (handler msg)) ->
  emits_at_most kind n (except_ClientError m handler).
Proof.
  intros Hm Hh h. unfold except_ClientError. specialize (Hm h).
  destruct (m h) as [[a | e] evs]; cbn [snd] in *; try exact Hm.
  destruct e; try exact Hm.
  specialize (Hh msg (h ++ evs)%list).
  destruct (handler msg (h ++ evs)%list) as [r evs']. cbn [snd] in *.
  rewrite filter_app, length_app. lia.
Qed.

Lemma emits_service {A} (ev : event) (answer : history -> string + A) :
  emits_at_most kind 1 (service ev answer).
Proof. intros h. cbn. destruct (kind ev); cbn; lia. Qed.

Lemma emits_service_0 {A} (ev : event) (answer : history -> string + A) :
  kind ev = false -> emits_at_most kind 0 (service ev answer).
Proof. intros Hev h. cbn. rewrite Hev. cbn. lia. Qed.

Lemma emits_prints {A} (m : M A) :
  (forall h, Forall (fun e => is_print e = true) (snd (m h))) ->
  emits_at_most kind 0 m.
Proof.
  intros Hm h. rewrite (filter_prints kind _ kind_print (Hm h)). cbn. lia.
Qed.

(** The clients. *)

Lemma emits_supabase_request W method endpoint data params :
  emits_at_most kind 1 (supabase_request W method endpoint data params).
Proof.
  intros h. destruct (supported method) eqn:Hm.
  - destruct (supabase_request_returns W method endpoint data params h Hm)
      as (v & prints & -> & Hprints).
    cbn [snd filter]. rewrite (filter_prints kind _ kind_print Hprints).
    destruct (kind _); cbn; lia.
  - rewrite (supabase_request_unsupported _ _ _ _ _ _ Hm). cbn. lia.
Qed.

Lemma emits_supabase_request_0 W method endpoint data params :
  (forall url headers kw, kind (EvHttp method url headers kw) = false) ->
  emits_at_most kind 0 (supabase_request W method endpoint data params).
Proof.
  intros Hkind h. destruct (supported method) eqn:Hm.
  - destruct (supabase_request_returns W method endpoint data params h Hm)
      as (v & prints & -> & Hprints).
    cbn [snd filter]. rewrite (filter_prints kind _ kind_print Hprints).
    unfold store_call. rewrite Hkind. cbn. lia.
  - rewrite (supabase_request_unsupported _ _ _ _ _ _ Hm). cbn. lia.
Qed.

Lemma emits_create_collection W collection_id :
  emits_at_most kind 2 (create_collection W collection_id).
Proof.
  unfold create_collection. apply emits_except.
  - apply emits_bind_S; [apply emits_service |]. intros ids.
    destruct (existsb _ ids).
    + apply (emits_weaken _ 0); [lia |].
      apply emits_bind_0; [apply emits_print | intros; apply emits_ret].
    + apply emits_bind_S; [apply emits_service |]. intros arn.
      apply emits_bind_0; [apply emits_print | intros; apply emits_ret].
  - intros msg. apply emits_bind_0; [apply emits_print | intros; apply emits_ret].
Qed.

Lemma emits_create_collection_0 W collection_id :
  kind EvListCollections = false ->
  (forall c, kind (EvCreateCollection c) = false) ->
  emits_at_most kind 0 (create_collection W collection_id).
Proof.
  intros Hlist Hcreate. unfold create_collection. apply emits_except.
  - apply emits_bind_0; [apply emits_service_0, Hlist |]. intros ids.
    destruct (existsb _ ids).
    + apply emits_bind_0; [apply emits_print | intros; apply emits_ret].
    + apply emits_bind_0; [apply emits_service_0, Hcreate |]. intros arn.
      apply emits_bind_0; [apply emits_print | intros; apply emits_ret].
  - intros msg. apply emits_bind_0; [apply emits_print | intros; apply emits_ret].
Qed.

Lemma emits_print_face_ids face_ids : emits_at_most kind 0 (print_face_ids face_ids).
Proof.
  apply emits_prints. intros h. rewrite print_face_ids_run.
  apply Forall_print_face_ids.
Qed.

Lemma emits_index_faces_from_base64 W collection_id image_base64 external_id :
  emits_at_most kind 1
    (index_faces_from_base64 W collection_id image_base64 external_id).
Proof.
  unfold index_faces_from_base64. apply emits_except.
  - apply emits_bind_0; [apply emits_lift |]. intros bytes.
    apply emits_bind_S; [apply emits_service |]. intros [| face_id rest].
    + apply emits_bind_0; [apply emits_print | intros; apply emits_ret].
    + apply emits_bind_0; [apply emits_print |]. intros _.
      apply emits_bind_0; [apply emits_print_face_ids | intros; apply emits_ret].
  - intros msg. apply emits_bind_0; [apply emits_print | intros; apply emits_ret].
Qed.

Lemma emits_index_faces_from_base64_0 W collection_id image_base64 external_id :
  (forall c b x a, kind (EvIndexFaces c b x a) = false) ->
  emits_at_most kind 0
    (index_faces_from_base64 W collection_id image_base64 external_id).
Proof.
  intros Hkind. unfold index_faces_from_base64. apply emits_except.
  - apply emits_bind_0; [apply emits_lift |]. intros bytes.
    apply emits_bind_0; [apply emits_service_0, Hkind |]. intros [| face_id rest].
    + apply emits_bind_0; [apply emits_print | intros; apply emits_ret].
    + apply emits_bind_0; [apply emits_print |]. intros _.
      apply emits_bind_0; [apply emits_print_face_ids | intros; apply emits_ret].
  - intros msg. apply emits_bind_0; [apply emits_print | intros; apply emits_ret].
Qed.

Lemma emits_search_handler (e : string) :
  emits_at_most kind 0
    (if str_contains "InvalidParameterException" e
        && str_contains "No face detected" e
     then
       print "No faces detected in the input image." ;;
       ret (status_message "error" "No faces detected in the input image.")
     else
       print ("Error searching for faces: " ++ e) ;;
       ret (status_message "error" e)).
Proof.
  destruct (_ && _);
    (apply emits_bind_0; [apply emits_print | intros; apply emits_ret]).
Qed.

Lemma emits_search_faces_from_base64 W collection_id image_base64 threshold :
  emits_at_most kind 1
    (search_faces_from_base64 W collection_id image_base64 threshold).
Proof.
  unfold search_faces_from_base64. apply emits_except.
  - apply emits_bind_0; [apply emits_lift |]. intros bytes.
    apply emits_bind_S; [apply emits_service |]. intros [| fm fms];
      (apply emits_bind_0; [apply emits_print | intros; apply emits_ret]).
  - apply emits_search_handler.
Qed.

Lemma emits_search_faces_from_base64_0 W collection_id image_base64 threshold :
  (forall c b t n, kind (EvSearchFacesByImage c b t n) = false) ->
  emits_at_most kind 0
    (search_faces_from_base64 W collection_id image_base64 threshold).
Proof.
  intros Hkind. unfold search_faces_from_base64. apply emits_except.
  - apply emits_bind_0; [apply emits_lift |]. intros bytes.
    apply emits_bind_0; [apply emits_service_0, Hkind |]. intros [| fm fms];
      (apply emits_bind_0; [apply emits_print | intros; apply emits_ret]).
  - apply emits_search_handler.
Qed.

End Budget.

(** Spends the budget of a goal [emits_at_most kind n m] along [m]. *)
Ltac spend_on_pure :=
  first
    [ apply emits_ret
    | apply emits_bind_0; [apply emits_lift | intros ? ]
    | match goal with
      | |- emits_at_most _ _ (if ?c then _ else _) => destruct c
      | |- emits_at_most _ _ (match ?x with Some _ => _ | None => _ end) => destruct x
      end ].

Ltac kind_is_false := intros; reflexivity.

Ltac spend_0 :=
  first
    [ apply emits_supabase_request_0; kind_is_false
    | apply emits_create_collection_0; kind_is_false
    | apply emits_index_faces_from_base64_0; kind_is_false
    | apply emits_search_faces_from_base64_0; kind_is_false ].

Ltac spend_1 :=
  first
    [ apply emits_supabase_request; kind_is_false
    | apply emits_index_faces_from_base64; kind_is_false
    | apply emits_search_faces_from_base64; kind_is_false ].

Ltac spend :=
  repeat first
    [ spend_on_pure
    | apply emits_bind_0; [spend_0 | intros ? ]
    | apply emits_bind_S; [spend_1 | intros ? ]
    | apply emits_bind_2; [apply emits_create_collection; kind_is_false | intros ? ] ].

(** X10. The outbound calls of one request are bounded, whatever the
    request body and whatever the services answer: the two listing
    endpoints and student creation make at most one request to the store
    and no call to the face service; register-face makes at most one
    request to the store and at most three calls to the face service, of
    which at most one enrollment; recognize-face makes at most two
    requests to the store and at most one call to the face service. *)
Theorem endpoint_call_budget W :
  emits_at_most is_http 1 (api_get_students W)
  /\ emits_at_most is_face_service_call 0 (api_get_students W)
  /\ (forall limit_arg,
        emits_at_most is_http 1 (api_get_attendance W limit_arg)
        /\ emits_at_most is_face_service_call 0 (api_get_attendance W limit_arg))
  /\ (forall data,
        emits_at_most is_http 1 (api_create_student W data)
        /\ emits_at_most is_face_service_call 0 (api_create_student W data))
  /\ (forall data,
        emits_at_most is_http 1 (api_register_face W data)
        /\ emits_at_most is_face_service_call 3 (api_register_face W data)
        /\ emits_at_most is_index_faces 1 (api_register_face W data))
  /\ (forall data,
        emits_at_most is_http 2 (api_recognize_face W data)
        /\ emits_at_most is_face_service_call 1 (api_recognize_face W data)).
Proof.
  repeat split; intros;
    unfold api_get_students, api_get_attendance, api_create_student,
      api_register_face, api_recognize_face,
      get_students, get_attendance_records, create_student,
      get_student_by_roll_number, get_student_by_id, record_attendance;
    spend.
Qed.

(** X11. What the endpoints never do, whatever the request body and
    whatever the services answer: none of them deletes a collection or a
    face; the listing endpoints and register-face never send the store
    anything but reads; student creation and recognize-face send it at
    most one write; recognize-face never enrolls a face and never creates
    a collection. *)
Theorem endpoint_never_events W :
  emits_at_most is_deletion 0 (api_get_students W)
  /\ emits_at_most is_store_write 0 (api_get_students W)
  /\ (forall limit_arg,
        emits_at_most is_deletion 0 (api_get_attendance W limit_arg)
        /\ emits_at_most is_store_write 0 (api_get_attendance W limit_arg))
  /\ (forall data,
        emits_at_most is_deletion 0 (api_create_student W data)
        /\ emits_at_most is_store_write 1 (api_create_student W data))
  /\ (forall data,
        emits_at_most is_deletion 0 (api_register_face W data)
        /\ emits_at_most is_store_write 0 (api_register_face W data))
  /\ (forall data,
        emits_at_most is_deletion 0 (api_recognize_face W data)
        /\ emits_at_most is_store_write 1 (api_recognize_face W data)
        /\ emits_at_most is_index_faces 0 (api_recognize_face W data)
        /\ emits_at_most is_create_collection 0 (api_recognize_face W data)).
Proof.
  repeat split; intros;
    unfold api_get_students, api_get_attendance, api_create_student,
      api_register_face, api_recognize_face,
      get_students, get_attendance_records, create_student,
      get_student_by_roll_number, get_student_by_id, record_attendance;
    spend.
Qed.

(** ** Registering a face, path by path *)

Lemma Z_eqb_neq_cons {A} (x : A) (l : list A) :
  (Z.of_nat (List.length (x :: l)) =? 0) = false.
Proof. apply Z.eqb_neq. cbn [List.length]. lia. Qed.

(** X12. A register-face request whose JSON object lacks the image or
    the roll number is answered 400 before anything is asked of the store
    or of the face service. *)
Theorem api_register_face_missing_field W h d :
  lookup "image" d = None \/ lookup "roll_number" d = None ->
  api_register_face W (PDict d) h =
    (Ret (jsonify_with (status_message "error" "Missing image or roll_number") 400), []).
Proof.
  intros Hmissing. unfold api_register_face. cbn [contains obind]. unfold has_key.
  destruct (lookup "image" d) as [image |]; cbn [negb].
  - destruct Hmissing as [Himage | Hroll]; [discriminate |].
    rewrite Hroll. cbn [negb]. rewrite !bind_lift_Ret. reflexivity.
  - rewrite !bind_lift_Ret. reflexivity.
Qed.

Lemma api_register_face_missing_field_witness :
  api_register_face Fixtures.campus Fixtures.png_payload [] =
    (Ret (jsonify_with (status_message "error" "Missing image or roll_number") 400), []).
Proof.
  apply (api_register_face_missing_field Fixtures.campus []
           [ ("image", PStr "data:image/png;base64,AAAA") ]).
  right. reflexivity.
Defined.

(** X13. A register-face request for a roll number the store knows runs
    three steps in this order: the lookup, [create_collection] on the
    configured collection, and one enrollment of the stripped image under
    the [id] of the first student the lookup returned.  What the
    enrollment returns, a success or an error result alike, is the body of
    the answer, with status 200. *)
Theorem api_register_face_enrolls_first_student W h d s roll_number student others evs1
    external_id ensured evs2 result evs3 :
  lookup "image" d = Some (PStr s) ->
  lookup "roll_number" d = Some roll_number ->
  get_student_by_roll_number W roll_number h = (Ret (PList (student :: others)), evs1) ->
  getitem student "id" = Ret external_id ->
  create_collection W (collection_id W) (h ++ evs1)%list = (Ret ensured, evs2) ->
  index_faces_from_base64 W (collection_id W) (PStr (stripped s)) external_id
    ((h ++ evs1) ++ evs2)%list = (Ret result, evs3) ->
  api_register_face W (PDict d) h =
    (Ret {| status := 200; payload := result |}, (evs1 ++ evs2 ++ evs3)%list).
Proof.
  intros Hi Hr Hlookup Hid Hensure Henroll. unfold api_register_face.
  cbn [contains obind getitem].
  rewrite (lookup_has_key _ _ _ Hi), (lookup_has_key _ _ _ Hr), Hi, Hr.
  repeat (rewrite bind_lift_Ret; cbn [negb]; cbn iota).
  eapply bind_Ret_eq; [exact Hlookup |].
  cbn [truthy negb len obind]. rewrite Z_eqb_neq_cons. pure_steps.
  eapply bind_Ret_eq; [exact Hensure |]. pure_steps.
  rewrite strip_data_uri_str. pure_steps. rewrite Hid. pure_steps.
  rewrite <- (app_nil_r evs3).
  eapply bind_Ret_eq; [exact Henroll | reflexivity].
Qed.

Lemma api_register_face_enrolls_first_student_witness :
  api_register_face Fixtures.campus
    (PDict [ ("image", PStr "data:image/png;base64,AAAA");
             ("roll_number", PStr "21CS001") ]) [] =
    (Ret {| status := 200;
            payload := PDict [ ("status", PStr "success");
                               ("face_ids", PList [ PStr "face-1" ]);
                               ("count", PInt 1) ] |},
     ([ store_call Fixtures.campus "GET"
          "/rest/v1/students?roll_number=eq.21CS001&select=*" PNone PNone ]
      ++ [ EvListCollections;
           EvCreateCollection "attendance_collection";
           EvPrint "Collection 'attendance_collection' created. ARN: aws:rekognition:attendance_collection" ]
      ++ [ EvIndexFaces "attendance_collection" (list_byte_of_string "AAAA")
             (PStr "S1") [ "ALL" ];
           EvPrint "Added 1 face(s) to collection 'attendance_collection'";
           EvPrint "Face ID: face-1" ])%list).
Proof.
  apply (api_register_face_enrolls_first_student Fixtures.campus []
           [ ("image", PStr "data:image/png;base64,AAAA");
             ("roll_number", PStr "21CS001") ]
           "data:image/png;base64,AAAA" (PStr "21CS001") Fixtures.student_S1 []
           _ (PStr "S1")
           (status_message "success" "Collection 'attendance_collection' created."));
    reflexivity.
Defined.

(** ** The other endpoints *)

(** X14. Student creation judges the store by the truthiness of what
    [supabase_request] returned, not by the status: when the store
    accepts the write (status below 400), the answer is 200 with the
    result echoed as [data] if that result is truthy, and 500, "Failed
    to create student", if the body parsed to a falsy value such as an
    empty list, or was empty text that is not JSON. *)
Theorem api_create_student_judges_by_truthiness W h d name branch year roll_number email :
  lookup "name" d = Some name ->
  lookup "branch" d = Some branch ->
  lookup "year" d = Some year ->
  lookup "roll_number" d = Some roll_number ->
  lookup "email" d = Some email ->
  status_code
    (store_answer W h "POST" "/rest/v1/students"
       (PDict [ ("name", name); ("branch", branch); ("year", year);
                ("roll_number", roll_number); ("email", email) ]) PNone) < 400 ->
  (forall v,
     json (store_answer W h "POST" "/rest/v1/students"
             (PDict [ ("name", name); ("branch", branch); ("year", year);
                      ("roll_number", roll_number); ("email", email) ]) PNone) = Some v ->
     fst (api_create_student W (PDict d) h) =
       Ret (if truthy v
            then jsonify (PDict [ ("status", PStr "success"); ("data", v) ])
            else jsonify_with (status_message "error" "Failed to create student") 500))
  /\
  (json (store_answer W h "POST" "/rest/v1/students"
           (PDict [ ("name", name); ("branch", branch); ("year", year);
                    ("roll_number", roll_number); ("email", email) ]) PNone) = None ->
   text (store_answer W h "POST" "/rest/v1/students"
           (PDict [ ("name", name); ("branch", branch); ("year", year);
                    ("roll_number", roll_number); ("email", email) ]) PNone) = "" ->
   fst (api_create_student W (PDict d) h) =
     Ret (jsonify_with (status_message "error" "Failed to create student") 500)).
Proof.
  intros Hn Hb Hy Hr He Hs.
  rewrite (api_create_student_valid W h d _ _ _ _ _ Hn Hb Hy Hr He).
  unfold bind. rewrite create_student_run, supabase_request_run by reflexivity.
  replace (status_code _ >=? 400) with false
    by (symmetry; rewrite Z.geb_leb; apply Z.leb_gt; lia).
  split.
  - intros v ->. destruct (truthy v); reflexivity.
  - intros -> ->. reflexivity.
Qed.

Lemma api_create_student_judges_by_truthiness_witness :
  fst (api_create_student Fixtures.campus Fixtures.student_S1 []) =
    Ret (jsonify (PDict [ ("status", PStr "success"); ("data", PList [ PDict [] ]) ])).
Proof.
  apply (proj1 (api_create_student_judges_by_truthiness Fixtures.campus []
                  [ ("id", PStr "S1"); ("name", PStr "Asha"); ("branch", PStr "CSE");
                    ("year", PInt 2); ("roll_number", PStr "21CS001");
                    ("email", PStr "asha@example.edu") ]
                  (PStr "Asha") (PStr "CSE") (PInt 2) (PStr "21CS001")
                  (PStr "asha@example.edu")
                  eq_refl eq_refl eq_refl eq_refl eq_refl eq_refl)
           (PList [ PDict [] ]) eq_refl).
Defined.

(** X15. A request body that is not a JSON object never reaches the
    store or the face service: each of the three POST endpoints either
    answers 400 for a field it does not find in the body (by membership in
    an array, by substring in a string) or raises [TypeError], and emits
    nothing. *)
Theorem non_object_body_reaches_no_service W h data :
  (forall d, data <> PDict d) ->
  (snd (api_create_student W data h) = []
   /\ (fst (api_create_student W data h) = Raise TypeError
       \/ exists field,
            In field required_fields
            /\ fst (api_create_student W data h) =
                 Ret (jsonify_with
                        (status_message "error" ("Missing required field: " ++ field))
                        400)))
  /\
  (snd (api_register_face W data h) = []
   /\ (fst (api_register_face W data h) = Raise TypeError
       \/ fst (api_register_face W data h) =
            Ret (jsonify_with (status_message "error" "Missing image or roll_number")
                   400)))
  /\
  (snd (api_recognize_face W data h) = []
   /\ (fst (api_recognize_face W data h) = Raise TypeError
       \/ fst (api_recognize_face W data h) =
            Ret (jsonify_with (status_message "error" "Missing image") 400))).
Proof.
  intros Hnot.
  assert (Hcases : (exists f, contains f data = Raise TypeError
                              /\ forall k, contains k data = Raise TypeError)
                   \/ (forall k, exists b, contains k data = Ret b)
                      /\ forall k, getitem data k = Raise TypeError).
  { destruct data as [| b | z | f | s | l | d];
      try (left; exists "x"; split; [reflexivity | intros; reflexivity]).
    - right. split; [intros k; eexists; reflexivity | reflexivity].
    - right. split; [intros k; eexists; reflexivity | reflexivity].
    - exfalso. exact (Hnot d eq_refl). }
  destruct Hcases as [(f0 & _ & Hraise) | (Hany & Hget)].
  - repeat split.
    + unfold api_create_student, required_fields. cbn [first_missing].
      rewrite Hraise. reflexivity.
    + left. unfold api_create_student, required_fields. cbn [first_missing].
      rewrite Hraise. reflexivity.
    + unfold api_register_face. rewrite Hraise. reflexivity.
    + left. unfold api_register_face. rewrite Hraise. reflexivity.
    + unfold api_recognize_face. rewrite Hraise. reflexivity.
    + left. unfold api_recognize_face. rewrite Hraise. reflexivity.
  - split; [| split].
    + unfold api_create_student, required_fields. cbn [first_missing].
      destruct (Hany "name") as ([] & ->); cbn [obind negb];
        [| rewrite bind_lift_Ret; split; [reflexivity | right; exists "name"; split; [cbn; tauto | reflexivity]]].
      destruct (Hany "branch") as ([] & ->); cbn [obind negb];
        [| rewrite bind_lift_Ret; split; [reflexivity | right; exists "branch"; split; [cbn; tauto | reflexivity]]].
      destruct (Hany "year") as ([] & ->); cbn [obind negb];
        [| rewrite bind_lift_Ret; split; [reflexivity | right; exists "year"; split; [cbn; tauto | reflexivity]]].
      destruct (Hany "roll_number") as ([] & ->); cbn [obind negb];
        [| rewrite bind_lift_Ret; split;
           [reflexivity | right; exists "roll_number"; split; [cbn; tauto | reflexivity]]].
      destruct (Hany "email") as ([] & ->); cbn [obind negb];
        [| rewrite bind_lift_Ret; split; [reflexivity | right; exists "email"; split; [cbn; tauto | reflexivity]]].
      rewrite bind_lift_Ret, Hget, bind_lift_Raise. split; [reflexivity | left; reflexivity].
    + unfold api_register_face.
      destruct (Hany "image") as ([] & ->); cbn [obind negb]; rewrite bind_lift_Ret;
        cbn iota.
      * destruct (Hany "roll_number") as ([] & ->); cbn [obind negb];
          rewrite bind_lift_Ret; cbn iota.
        -- rewrite Hget, bind_lift_Raise. split; [reflexivity | left; reflexivity].
        -- split; [reflexivity | right; reflexivity].
      * rewrite bind_lift_Ret. split; [reflexivity | right; reflexivity].
    + unfold api_recognize_face.
      destruct (Hany "image") as ([] & ->); cbn [obind negb]; rewrite bind_lift_Ret;
        cbn iota.
      * rewrite Hget, bind_lift_Raise. split; [reflexivity | left; reflexivity].
      * split; [reflexivity | right; reflexivity].
Qed.

Lemma non_object_body_reaches_no_service_witness :
  snd (api_create_student Fixtures.campus
         (PList [ PStr "name"; PStr "branch"; PStr "year"; PStr "roll_number";
                  PStr "email" ]) []) = []
  /\ snd (api_register_face Fixtures.campus (PStr "image and roll_number") []) = []
  /\ snd (api_recognize_face Fixtures.campus PNone []) = [].
Proof.
  split; [| split].
  - apply (proj1 (non_object_body_reaches_no_service Fixtures.campus []
                    (PList [ PStr "name"; PStr "branch"; PStr "year";
                             PStr "roll_number"; PStr "email" ])
                    ltac:(discriminate))).
  - apply (proj1 (proj2 (non_object_body_reaches_no_service Fixtures.campus []
                           (PStr "image and roll_number") ltac:(discriminate)))).
  - apply (proj2 (proj2 (non_object_body_reaches_no_service Fixtures.campus []
                           PNone ltac:(discriminate)))).
Defined.

(** X16. A recognize-face request whose image is not a string raises
    before any call is made: [AttributeError], for want of [split], exactly
    when "," is in the image (an array holding the string ",", an object
    with the key ","), and [TypeError] in every other case. *)
Theorem api_recognize_face_non_string_image W h d image :
  lookup "image" d = Some image ->
  (forall s, image <> PStr s) ->
  (contains "," image = Ret true ->
   api_recognize_face W (PDict d) h = (Raise AttributeError, []))
  /\
  (contains "," image <> Ret true ->
   api_recognize_face W (PDict d) h = (Raise TypeError, []))
  /\
  (forall l,
     image = PList l ->
     api_recognize_face W (PDict d) h =
       (Raise (if existsb (fun x => eq_str x ",") l then AttributeError else TypeError),
        []))
  /\
  (forall items,
     image = PDict items ->
     api_recognize_face W (PDict d) h =
       (Raise (if has_key "," items then AttributeError else TypeError), [])).
Proof.
  intros Hd Hns.
  assert (Hhead : forall e,
             strip_data_uri image = Raise e ->
             api_recognize_face W (PDict d) h = (Raise e, [])).
  { intros e Hstrip. unfold api_recognize_face. cbn [contains obind getitem].
    rewrite (lookup_has_key _ _ _ Hd), Hd. cbn [negb].
    repeat (rewrite bind_lift_Ret; cbn iota). rewrite Hstrip. reflexivity. }
  assert (Hpass : strip_data_uri image = Ret image ->
                  api_recognize_face W (PDict d) h = (Raise TypeError, [])).
  { intros Hstrip. rewrite (api_recognize_face_image W h d _ _ Hd Hstrip).
    assert (Hdec : decode_image W image = Raise TypeError).
    { destruct image; try reflexivity. exfalso. exact (Hns s eq_refl). }
    exact (bind_Raise _ _ _ _ _
             (search_faces_from_base64_undecoded W _ _ 80 h _ Hdec)). }
  assert (Hlist : forall l,
             image = PList l ->
             api_recognize_face W (PDict d) h =
               (Raise (if existsb (fun x => eq_str x ",") l
                       then AttributeError else TypeError), [])).
  { intros l ->. destruct (existsb (fun x => eq_str x ",") l) eqn:Hex.
    - apply Hhead. unfold strip_data_uri. cbn [contains obind]. rewrite Hex. reflexivity.
    - apply Hpass. unfold strip_data_uri. cbn [contains obind]. rewrite Hex. reflexivity. }
  assert (Hdict : forall items,
             image = PDict items ->
             api_recognize_face W (PDict d) h =
               (Raise (if has_key "," items then AttributeError else TypeError), [])).
  { intros items ->. destruct (has_key "," items) eqn:Hex.
    - apply Hhead. unfold strip_data_uri. cbn [contains obind]. rewrite Hex. reflexivity.
    - apply Hpass. unfold strip_data_uri. cbn [contains obind]. rewrite Hex. reflexivity. }
  split; [| split; [| split; [exact Hlist | exact Hdict]]].
  - intros Hcomma. destruct image as [| b | z | f | s | l | items]; try discriminate.
    + exfalso. exact (Hns s eq_refl).
    + rewrite (Hlist l eq_refl). cbn [contains] in Hcomma.
      injection Hcomma as ->. reflexivity.
    + rewrite (Hdict items eq_refl). cbn [contains] in Hcomma.
      injection Hcomma as ->. reflexivity.
  - intros Hcomma. destruct image as [| b | z | f | s | l | items];
      try (apply Hhead; reflexivity).
    + exfalso. exact (Hns s eq_refl).
    + rewrite (Hlist l eq_refl). cbn [contains] in Hcomma.
      destruct (existsb _ l); [exfalso; apply Hcomma; reflexivity | reflexivity].
    + rewrite (Hdict items eq_refl). cbn [contains] in Hcomma.
      destruct (has_key "," items); [exfalso; apply Hcomma; reflexivity | reflexivity].
Qed.

Lemma api_recognize_face_non_string_image_witness :
  api_recognize_face Fixtures.campus (PDict [ ("image", PList [ PStr "," ]) ]) [] =
    (Raise AttributeError, [])
  /\ api_recognize_face Fixtures.campus (PDict [ ("image", PList [ PStr "AAAA" ]) ]) [] =
       (Raise TypeError, []).
Proof.
  split.
  - apply (proj1 (api_recognize_face_non_string_image Fixtures.campus []
                    [ ("image", PList [ PStr "," ]) ] (PList [ PStr "," ]) eq_refl
                    ltac:(discriminate))).
    reflexivity.
  - apply (proj1 (proj2 (api_recognize_face_non_string_image Fixtures.campus []
                           [ ("image", PList [ PStr "AAAA" ]) ]
                           (PList [ PStr "AAAA" ]) eq_refl ltac:(discriminate)))).
    discriminate.
Defined.

(** X17. When the store answers the one GET of a listing endpoint with
    a status below 400 and a JSON body, the endpoint answers 200 with
    exactly that body, however many records it holds: nothing is cut to
    the limit on this side.  The limit goes into the query as given, and a
    request without a limit runs like one with limit 50. *)
Theorem listing_endpoints_pass_the_store_through W h :
  (forall v,
     status_code (store_answer W h "GET" "/rest/v1/students?select=*" PNone PNone)
       < 400 ->
     json (store_answer W h "GET" "/rest/v1/students?select=*" PNone PNone) = Some v ->
     api_get_students W h =
       (Ret {| status := 200; payload := v |},
        [ store_call W "GET" "/rest/v1/students?select=*" PNone PNone ]))
  /\
  (forall limit v,
     status_code
       (store_answer W h "GET"
          ("/rest/v1/attendance_with_student?select=*&limit=" ++ limit) PNone PNone)
       < 400 ->
     json (store_answer W h "GET"
             ("/rest/v1/attendance_with_student?select=*&limit=" ++ limit) PNone PNone)
       = Some v ->
     api_get_attendance W (Some limit) h =
       (Ret {| status := 200; payload := v |},
        [ store_call W "GET"
            ("/rest/v1/attendance_with_student?select=*&limit=" ++ limit)
            PNone PNone ]))
  /\
  api_get_attendance W None h = api_get_attendance W (Some "50") h.
Proof.
  split; [| split].
  - intros v Hs Hv. unfold api_get_students, get_students, bind.
    rewrite supabase_request_run by reflexivity.
    replace (status_code _ >=? 400) with false
      by (symmetry; rewrite Z.geb_leb; apply Z.leb_gt; lia).
    rewrite Hv. reflexivity.
  - intros limit v Hs Hv. unfold api_get_attendance, get_attendance_records, bind.
    cbn [format]. rewrite supabase_request_run by reflexivity.
    replace (status_code _ >=? 400) with false
      by (symmetry; rewrite Z.geb_leb; apply Z.leb_gt; lia).
    rewrite Hv. reflexivity.
  - reflexivity.
Qed.

Lemma listing_endpoints_pass_the_store_through_witness :
  api_get_attendance Fixtures.campus (Some "2") [] =
    (Ret {| status := 200; payload := PList [] |},
     [ store_call Fixtures.campus "GET"
         "/rest/v1/attendance_with_student?select=*&limit=2" PNone PNone ]).
Proof.
  apply (proj1 (proj2 (listing_endpoints_pass_the_store_through Fixtures.campus []))
           "2" (PList [])).
  - vm_compute. reflexivity.
  - reflexivity.
Defined.

(** ** No [ClientError] escapes *)

Lemma no_ClientError_Ret {A} (a : A) : no_ClientError (Ret a).
Proof. intros msg. discriminate. Qed.

Lemma no_ClientError_obind {A B} (o : outcome A) (k : A -> outcome B) :
  no_ClientError o -> (forall a, no_ClientError (k a)) -> no_ClientError (obind o k).
Proof.
  intros Ho Hk. destruct o as [a | e]; cbn [obind]; [apply Hk |].
  intros msg [= ->]. exact (Ho msg eq_refl).
Qed.

Lemma no_ClientError_contains k v : no_ClientError (contains k v).
Proof. destruct v; intros msg; discriminate. Qed.

Lemma no_ClientError_getitem v k : no_ClientError (getitem v k).
Proof.
  destruct v; intros msg; try discriminate. cbn. destruct (lookup k d); discriminate.
Qed.

Lemma no_ClientError_getindex v i : no_ClientError (getindex v i).
Proof.
  destruct v; intros msg; try discriminate; cbn.
  - destruct (String.get i s); discriminate.
  - destruct (nth_error l i); discriminate.
Qed.

Lemma no_ClientError_len v : no_ClientError (len v).
Proof. destruct v; intros msg; discriminate. Qed.

Lemma no_ClientError_split_comma v : no_ClientError (split_comma v).
Proof. destruct v; intros msg; discriminate. Qed.

Lemma no_ClientError_strip_data_uri image : no_ClientError (strip_data_uri image).
Proof.
  unfold strip_data_uri. apply no_ClientError_obind; [apply no_ClientError_contains |].
  intros [].
  - apply no_ClientError_obind; [apply no_ClientError_split_comma |].
    intros parts. apply no_ClientError_getindex.
  - apply no_ClientError_Ret.
Qed.

Lemma no_ClientError_first_missing data fields :
  no_ClientError (first_missing data fields).
Proof.
  induction fields as [| field rest IH]; cbn [first_missing].
  - apply no_ClientError_Ret.
  - apply no_ClientError_obind; [apply no_ClientError_contains |].
    intros []; cbn [negb]; [exact IH | apply no_ClientError_Ret].
Qed.

Lemma no_ClientError_decode_image W image_base64 :
  no_ClientError (decode_image W image_base64).
Proof.
  intros msg Hdec. destruct (decode_image_raises _ _ _ Hdec); discriminate.
Qed.

Lemma catches_ret {A} (a : A) : catches_ClientError (ret a).
Proof. intros h msg. discriminate. Qed.

Lemma catches_print line : catches_ClientError (print line).
Proof. intros h msg. discriminate. Qed.

Lemma catches_lift {A} (o : outcome A) : no_ClientError o -> catches_ClientError (lift o).
Proof. intros Ho h. exact Ho. Qed.

Lemma catches_bind {A B} (m : M A) (k : A -> M B) :
  catches_ClientError m -> (forall a, catches_ClientError (k a)) ->
  catches_ClientError (bind m k).
Proof.
  intros Hm Hk h. unfold bind. specialize (Hm h).
  destruct (m h) as [[a | e] evs]; cbn [fst] in *.
  - specialize (Hk a (h ++ evs)%list). destruct (k a (h ++ evs)%list). exact Hk.
  - intros msg [= ->]. exact (Hm msg eq_refl).
Qed.

(** The handler is all that counts: whatever the body raises, a
    [ClientError] ends in the handler. *)
Lemma catches_except {A} (m : M A) (handler : string -> M A) :
  (forall msg, catches_ClientError (handler msg)) ->
  catches_ClientError (except_ClientError m handler).
Proof.
  intros Hh h. unfold except_ClientError.
  destruct (m h) as [[a | e] evs]; cbn [fst]; [intros msg; discriminate |].
  destruct e; cbn [fst]; try (intros msg'; discriminate).
  specialize (Hh msg (h ++ evs)%list).
  destruct (handler msg (h ++ evs)%list). exact Hh.
Qed.

Lemma catches_supabase_request W method endpoint data params :
  catches_ClientError (supabase_request W method endpoint data params).
Proof.
  intros h. destruct (supported method) eqn:Hm.
  - destruct (supabase_request_returns W method endpoint data params h Hm)
      as (v & prints & -> & _).
    apply no_ClientError_Ret.
  - rewrite (supabase_request_unsupported _ _ _ _ _ _ Hm). intros msg. discriminate.
Qed.

Ltac pure_no_ClientError :=
  repeat first
    [ apply no_ClientError_Ret
    | apply no_ClientError_contains
    | apply no_ClientError_getitem
    | apply no_ClientError_getindex
    | apply no_ClientError_len
    | apply no_ClientError_strip_data_uri
    | apply no_ClientError_first_missing
    | apply no_ClientError_obind; [| intros ? ]
    | match goal with
      | |- no_ClientError (if ?c then _ else _) => destruct c
      end ].

Ltac handler_returns :=
  intros ?;
  repeat first
    [ apply catches_ret
    | apply catches_print
    | apply catches_bind; [| intros ? ]
    | match goal with
      | |- catches_ClientError (if ?c then _ else _) => destruct c
      end ].

Lemma catches_create_collection W collection_id :
  catches_ClientError (create_collection W collection_id).
Proof. apply catches_except. handler_returns. Qed.

Lemma catches_delete_collection W collection_id :
  catches_ClientError (delete_collection W collection_id).
Proof. apply catches_except. handler_returns. Qed.

Lemma catches_index_faces_from_base64 W collection_id image_base64 external_id :
  catches_ClientError (index_faces_from_base64 W collection_id image_base64 external_id).
Proof. apply catches_except. handler_returns. Qed.

Lemma catches_search_faces_from_base64 W collection_id image_base64 threshold :
  catches_ClientError (search_faces_from_base64 W collection_id image_base64 threshold).
Proof. apply catches_except. handler_returns. Qed.

Lemma catches_delete_faces W collection_id face_ids :
  catches_ClientError (delete_faces W collection_id face_ids).
Proof. apply catches_except. handler_returns. Qed.

Ltac no_escape :=
  repeat first
    [ apply catches_ret
    | apply catches_supabase_request
    | apply catches_create_collection
    | apply catches_index_faces_from_base64
    | apply catches_search_faces_from_base64
    | apply catches_lift; pure_no_ClientError
    | apply catches_bind; [| intros ? ]
    | match goal with
      | |- catches_ClientError (if ?c then _ else _) => destruct c
      | |- catches_ClientError (match ?x with Some _ => _ | None => _ end) => destruct x
      end ].

(** X18. No [ClientError] of the face service escapes: from any history
    and for any answers of the services, none of the five Rekognition
    functions and none of the endpoints ends by raising a [ClientError],
    whatever its arguments or request body. *)
Theorem no_ClientError_escapes W :
  (forall collection_id, catches_ClientError (create_collection W collection_id))
  /\ (forall collection_id, catches_ClientError (delete_collection W collection_id))
  /\ (forall collection_id image_base64 external_id,
        catches_ClientError
          (index_faces_from_base64 W collection_id image_base64 external_id))
  /\ (forall collection_id image_base64 threshold,
        catches_ClientError
          (search_faces_from_base64 W collection_id image_base64 threshold))
  /\ (forall collection_id face_ids,
        catches_ClientError (delete_faces W collection_id face_ids))
  /\ catches_ClientError (api_get_students W)
  /\ (forall limit_arg, catches_ClientError (api_get_attendance W limit_arg))
  /\ (forall data, catches_ClientError (api_create_student W data))
  /\ (forall data, catches_ClientError (api_register_face W data))
  /\ (forall data, catches_ClientError (api_recognize_face W data)).
Proof.
  repeat split; intros;
    try apply catches_create_collection;
    try apply catches_delete_collection;
    try apply catches_index_faces_from_base64;
    try apply catches_search_faces_from_base64;
    try apply catches_delete_faces;
    unfold api_get_students, api_get_attendance, api_create_student,
      api_register_face, api_recognize_face,
      get_students, get_attendance_records, create_student,
      get_student_by_roll_number, get_student_by_id, record_attendance;
    no_escape.
Qed.
